(** * NCBI GenBank data retriever: a shallow embedding of [s28515_2025-2.py]

    The script searches the NCBI nucleotide index by taxonomic identifier,
    fetches the matching GenBank flat-text records in pages, extracts three
    fields from each record by line-prefix scanning and writes a CSV report
    and a chart.

    Modelling conventions.
    - Python [str] values are [string]s; a character is a code point below
      256, so the white-space class of [str.split()] and [str.strip()] is
      the Latin-1 part of Python's: 9-13, 28-32, 133 and 160. [int()] skips
      a smaller class around a literal: 9-13, 32, 133 and 160.
    - Python [int] is [Z]. [int()] reads decimal literals and, as the
      interpreter does at its default setting, refuses a literal of more
      than 4300 digits.
    - [None] is [option]'s [None]; a raised exception is [Raise e].
    - The network, the clock, the file system and the terminal are an
      explicit [world]: a log of events, the Entrez configuration and a
      store of data frames. The remote service is an oracle that answers a
      request given the log so far. pandas and matplotlib are called, not
      modelled inside: a frame is the term that says how it was built, a
      call is an event, and an oracle says which calls raise. *)

From Stdlib Require Import ZArith Ascii String List Lia.
From Stdlib Require DecimalString.
From stdpp Require Import base strings list gmap.

Set Default Proof Using "Type".

(** ** Exceptions and results *)

Inductive exn : Type :=
| IndexError                      (* list index out of range *)
| ValueError                      (* invalid literal for int(), empty separator, zero step *)
| TypeError                       (* None used as a frame *)
| TransportFailure (msg : string) (* anything raised by the Entrez client *)
| LibraryError (msg : string)     (* anything raised inside pandas or matplotlib *)
| SystemExit (msg : string).      (* sys.exit(msg) *)

Inductive result (A : Type) : Type :=
| Ok (a : A)
| Raise (e : exn).
Arguments Ok {A} a.
Arguments Raise {A} e.

Global Instance result_ret : MRet result := fun _ a => Ok a.
Global Instance result_bind : MBind result := fun _ _ k r =>
  match r with
  | Ok a => k a
  | Raise e => Raise e
  end.

Definition succeeds {A} (r : result A) : Prop :=
  match r with Ok _ => True | Raise _ => False end.

(** ** Python strings *)

Module Str.

Definition is_empty (s : string) : bool :=
  match s with "" => true | _ => false end.

Definition of_char (c : ascii) : string := String c "".

(** [s.startswith(p)] *)
Fixpoint startswith (s p : string) {struct p} : bool :=
  match p with
  | "" => true
  | String b p' =>
      match s with
      | "" => false
      | String a s' => if decide (a = b) then startswith s' p' else false
      end
  end.

(** the slice [s[n:]] *)
Fixpoint drop (n : nat) (s : string) : string :=
  match n with
  | O => s
  | S n' => match s with "" => "" | String _ s' => drop n' s' end
  end.

(** [chr.isspace()] on code points below 256 *)
Definition isspace (c : ascii) : bool :=
  let n := N_of_ascii c in
  ((9 <=? n) && (n <=? 13) || (28 <=? n) && (n <=? 32)
   || (n =? 133) || (n =? 160))%N.

(** [s.split()]: maximal runs of characters that are not white space.
    [cur] is the run being read; the empty string means no run is open. *)
Definition flush (cur : string) : list string :=
  if is_empty cur then [] else [cur].

Fixpoint split_ws_go (cur s : string) : list string :=
  match s with
  | "" => flush cur
  | String c s' =>
      if isspace c then flush cur ++ split_ws_go "" s'
      else split_ws_go (cur +:+ of_char c) s'
  end.

Definition split_ws (s : string) : list string := split_ws_go "" s.

(** [s.strip()] *)
Fixpoint lstrip (s : string) : string :=
  match s with
  | "" => ""
  | String c s' => if isspace c then lstrip s' else s
  end.

Fixpoint rstrip (s : string) : string :=
  match s with
  | "" => ""
  | String c s' =>
      let r := rstrip s' in
      if is_empty r && isspace c then "" else String c r
  end.

Definition strip (s : string) : string := rstrip (lstrip s).

(** [s.split(sep)] for a non-empty [sep]: the text is cut at the leftmost
    occurrences of [sep], which do not overlap. [cur] is the segment being
    read. Every step consumes at least one character, so a fuel of one
    more than the length of the text is never exhausted. *)
Definition strip_prefix (p s : string) : option string :=
  if startswith s p then Some (drop (String.length p) s) else None.

Fixpoint split_go (fuel : nat) (sep cur s : string) : list string :=
  match fuel with
  | O => [cur +:+ s]
  | S fuel' =>
      match strip_prefix sep s with
      | Some rest => cur :: split_go fuel' sep "" rest
      | None =>
          match s with
          | "" => [cur]
          | String c s' => split_go fuel' sep (cur +:+ of_char c) s'
          end
      end
  end.

Definition split (s sep : string) : result (list string) :=
  if is_empty sep then Raise ValueError
  else Ok (split_go (S (String.length s)) sep "" s).

(** [sep.join(parts)] *)
Fixpoint join (sep : string) (parts : list string) : string :=
  match parts with
  | [] => ""
  | [p] => p
  | p :: ps => p +:+ sep +:+ join sep ps
  end.

(** [s.replace(old, new)]: every non-overlapping occurrence of [old],
    leftmost first, which is [new.join(s.split(old))] when [old] is not
    empty; an empty [old] puts [new] before every character and at the
    end. *)
Fixpoint intersperse (new s : string) : string :=
  match s with
  | "" => new
  | String c s' => new +:+ String c (intersperse new s')
  end.

Definition replace (s old new : string) : string :=
  if is_empty old then intersperse new s
  else join new (split_go (S (String.length s)) old "" s).

(** [int(s)]: white space around, an optional sign, then decimal digits
    with single underscores allowed between digits; at most
    [max_str_digits] digits. The white space [int()] skips is that of
    [isspace] without the separators 28-31. *)
Definition int_space (c : ascii) : bool :=
  let n := N_of_ascii c in
  ((9 <=? n) && (n <=? 13) || (n =? 32) || (n =? 133) || (n =? 160))%N.

Fixpoint int_lstrip (s : string) : string :=
  match s with
  | "" => ""
  | String c s' => if int_space c then int_lstrip s' else s
  end.

Fixpoint int_rstrip (s : string) : string :=
  match s with
  | "" => ""
  | String c s' =>
      let r := int_rstrip s' in
      if is_empty r && int_space c then "" else String c r
  end.

Definition max_str_digits : Z := 4300.

Definition digit (c : ascii) : option Z :=
  let n := N_of_ascii c in
  if ((48 <=? n) && (n <=? 57))%N then Some (Z.of_N n - 48)%Z else None.

Fixpoint int_digits (after_digit : bool) (acc : Z) (s : string) : option Z :=
  match s with
  | "" => if after_digit then Some acc else None
  | String c s' =>
      match digit c with
      | Some d => int_digits true (10 * acc + d)%Z s'
      | None =>
          if decide (c = "_"%char) then
            if after_digit then int_digits false acc s' else None
          else None
      end
  end.

Fixpoint digit_count (s : string) : Z :=
  match s with
  | "" => 0
  | String c s' =>
      (match digit c with Some _ => 1 | None => 0 end + digit_count s')%Z
  end.

Definition int (s : string) : result Z :=
  let t := int_rstrip (int_lstrip s) in
  let '(neg, body) :=
    match t with
    | String "-" r => (true, r)
    | String "+" r => (false, r)
    | _ => (false, t)
    end in
  match int_digits false 0%Z body with
  | Some n =>
      if (max_str_digits <? digit_count body)%Z then Raise ValueError
      else Ok (if neg then (- n)%Z else n)
  | None => Raise ValueError
  end.

(** [str(n)] for an integer *)
Definition of_Z (n : Z) : string :=
  DecimalString.NilZero.string_of_int (Z.to_int n).

End Str.

(** The line feed, and the two separators the script splits on. *)
Definition LF : string := String "010"%char "".
Definition record_separator : string := "//" +:+ LF.

(** ** Python lists and ranges *)

(** [xs[i]] for [i >= 0] *)
Definition index {A} (xs : list A) (i : nat) : result A :=
  match xs !! i with
  | Some x => Ok x
  | None => Raise IndexError
  end.

(** [xs[:-1]] *)
Definition but_last {A} (xs : list A) : list A := removelast xs.

(** [range(start, stop, step)]: the loop the iterator runs. With a positive
    step at most [stop - start] values lie below [stop], with a negative one
    at most [start - stop] lie above it. *)
Fixpoint range_up (fuel : nat) (cur stop step : Z) : list Z :=
  match fuel with
  | O => []
  | S fuel' =>
      if (cur <? stop)%Z then cur :: range_up fuel' (cur + step)%Z stop step
      else []
  end.

Fixpoint range_down (fuel : nat) (cur stop step : Z) : list Z :=
  match fuel with
  | O => []
  | S fuel' =>
      if (stop <? cur)%Z then cur :: range_down fuel' (cur + step)%Z stop step
      else []
  end.

Definition range (start stop step : Z) : result (list Z) :=
  if (step =? 0)%Z then Raise ValueError
  else if (0 <? step)%Z then Ok (range_up (Z.to_nat (stop - start)) start stop step)
  else Ok (range_down (Z.to_nat (start - stop)) start stop step).

(** [for x in xs: s = body(s, x)], in any monad *)
Fixpoint for_each `{MBind M, MRet M} {A S : Type}
    (xs : list A) (s : S) (body : S -> A -> M S) : M S :=
  match xs with
  | [] => mret s
  | x :: xs' => s' ← body s x; for_each xs' s' body
  end.

(** ** The world the script runs in *)

(** One extracted record, the list [[accession, length, description]]. *)
Record row : Type := Row {
  Accession : string;
  Length : option Z;
  Description : option string
}.

(** The keyword arguments of [Entrez.efetch]. *)
Record efetch_args : Type := EfetchArgs {
  db : string;
  rettype : string;
  retmode : string;
  retstart : Z;
  retmax : Z;
  webenv : string;
  query_key : string
}.

(** What the script reads of the dictionary [Entrez.read] returns for a
    search with history. *)
Record esearch_result : Type := EsearchResult {
  Count : string;
  WebEnv : string;
  QueryKey : string
}.

(** A data frame, as the term that built it: what pandas makes of the
    values (types of the columns, order of a sorted frame) stays inside
    pandas. A column is a frame and a label, [df['Length']]. *)
Inductive frame : Type :=
| DataFrame (data : list row) (columns : list string)
| SortedBy (f : frame) (label : string) (ascending : bool).

Inductive column : Type :=
| Column (f : frame) (label : string).

(** The calls into pandas and matplotlib, with their arguments. *)
Inductive library_call : Type :=
| NewDataFrame (data : list row) (columns : list string)
| ToCsv (f : frame) (filename : string) (index : bool)
| SortValues (f : frame) (label : string) (ascending inplace : bool)
| PltFigure (width height : Z)
| PltPlot (xs ys : column) (fmt : string)
| PltXticks (rotation : Z)
| PltXlabel (text : string)
| PltYlabel (text : string)
| PltTitle (text : string)
| PltTightLayout
| PltSavefig (filename : string)
| PltClose.

Inductive event : Type :=
| Esearch (database term usehistory : string)
| Efetch (args : efetch_args)
| Sleep (milliseconds : Z)
| Input (prompt : string)
| Print (line : string)
| Library (call : library_call).

(** A data frame lives in the store under a reference; a variable holds the
    reference. *)
Definition frame_ref : Type := nat.

Record world : Type := World {
  log : list event;
  entrez_email : option string;
  entrez_api_key : option string;
  entrez_tool : option string;
  frames : gmap frame_ref frame
}.

Definition initial_world : world :=
  {| log := []; entrez_email := None; entrez_api_key := None;
     entrez_tool := None; frames := ∅ |}.

(** What lies outside the script: the answers of the remote service, and
    whether a call into pandas or matplotlib raises (a path that cannot be
    written, a value that cannot be drawn); both may depend on everything
    that happened before. *)
Record environment : Type := Environment {
  esearch_read : list event -> string -> result esearch_result;
  efetch_read : list event -> efetch_args -> result string;
  library_raises : list event -> library_call -> option exn
}.

(** Computations that act on the world and may raise. The world reached
    when an exception is raised is kept: what was logged stays logged. *)
Definition io (A : Type) : Type := world -> result A * world.

Global Instance io_ret : MRet io := fun _ a w => (Ok a, w).
Global Instance io_bind : MBind io := fun _ _ k m w =>
  match m w with
  | (Ok a, w') => k a w'
  | (Raise e, w') => (Raise e, w')
  end.

Definition lift {A} (r : result A) : io A := fun w => (r, w).

Definition add_log (w : world) (events : list event) : world :=
  {| log := log w ++ events; entrez_email := entrez_email w;
     entrez_api_key := entrez_api_key w;
     entrez_tool := entrez_tool w; frames := frames w |}.

Definition emit (e : event) : io unit := fun w => (Ok tt, add_log w [e]).

Definition set_frame (w : world) (r : frame_ref) (f : frame) : world :=
  {| log := log w; entrez_email := entrez_email w;
     entrez_api_key := entrez_api_key w;
     entrez_tool := entrez_tool w;
     frames := <[r := f]> (frames w) |}.

(** A new object, under a reference that is not in use. *)
Definition new_frame (f : frame) : io frame_ref := fun w =>
  let r := fresh (dom (frames w)) in (Ok r, set_frame w r f).

(** The object under a reference, changed in place. *)
Definition write_frame (r : frame_ref) (f : frame) : io unit := fun w =>
  (Ok tt, set_frame w r f).

Definition read_frame (r : frame_ref) : io frame := fun w =>
  (Ok (default (DataFrame [] []) (frames w !! r)), w).

(** A call into pandas or matplotlib: it is logged, and raises if the
    environment says so. *)
Definition call (env : environment) (c : library_call) : io unit := fun w =>
  (match library_raises env (log w) c with
   | Some e => Raise e
   | None => Ok tt
   end, add_log w [Library c]).

(** Calls one after the other; the first that raises ends the sequence. *)
Fixpoint calls (env : environment) (cs : list library_call) : io unit :=
  match cs with
  | [] => mret tt
  | c :: cs' => _ ← call env c; calls env cs'
  end.

(** The three pandas operations the script uses. A frame built from a list
    is a new object. [to_csv] reads the object. [sort_values] in place makes
    the object under the reference the sorted frame and returns [None];
    otherwise it leaves the object alone and returns a new one. *)
Module Pandas.

Definition data_frame (env : environment) (data : list row) (columns : list string)
  : io frame_ref :=
  _ ← call env (NewDataFrame data columns);
  new_frame (DataFrame data columns).

Definition to_csv (env : environment) (df : frame_ref) (filename : string)
    (index : bool) : io unit :=
  f ← read_frame df;
  call env (ToCsv f filename index).

Definition sort_values (env : environment) (df : frame_ref) (label : string)
    (ascending inplace : bool) : io (option frame_ref) :=
  f ← read_frame df;
  _ ← call env (SortValues f label ascending inplace);
  if inplace then
    _ ← write_frame df (SortedBy f label ascending); mret None
  else
    df' ← new_frame (SortedBy f label ascending); mret (Some df').

End Pandas.

Definition truthy_str (s : string) : bool := negb (Str.is_empty s).

(** Truth value of an [int] or [None] *)
Definition truthy_int (n : option Z) : bool :=
  match n with
  | Some k => negb (k =? 0)%Z
  | None => false
  end.

(** ** The class [NCBIRetriever] *)

(** The blocks kept from one batch response, [text.split('//\n')[:-1]]. *)
Definition blocks_of (text : string) : result (list string) :=
  segments ← Str.split text record_separator; mret (but_last segments).

Module NCBIRetriever.
Section Methods.
Context (env : environment).

(** [__init__]: the credentials become ambient configuration. *)
Definition init (email api_key : string) : io unit := fun w =>
  (Ok tt, {| log := log w;
             entrez_email := Some email;
             entrez_api_key :=
               if truthy_str api_key then Some api_key else entrez_api_key w;
             entrez_tool := Some "BioScriptEx10";
             frames := frames w |}).

(** [f"{n}"] for an [int] or [None], and [f"{n or ''}"] *)
Definition fstr (n : option Z) : string :=
  match n with
  | Some k => Str.of_Z k
  | None => "None"
  end.

Definition fstr_or_empty (n : option Z) : string :=
  if truthy_int n then fstr n else "".

(** The search term of [search_taxid]. *)
Definition search_term (taxid : string) (min_len max_len : option Z) : string :=
  let term := "txid" +:+ taxid +:+ "[Organism]" in
  if truthy_int min_len then
    term +:+ " AND " +:+ fstr min_len +:+ ":" +:+ fstr_or_empty max_len
         +:+ "[SLEN]"
  else term.

Definition esearch (database term usehistory : string) : io esearch_result :=
  fun w =>
    let '(_, w') := emit (Esearch database term usehistory) w in
    (esearch_read env (log w) term, w').

Definition search_taxid (taxid : string) (min_len max_len : option Z)
  : io (option esearch_result) :=
  let term := search_term taxid min_len max_len in
  results ← esearch "nucleotide" term "y";
  n ← lift (Str.int (Count results));
  mret (if (0 <? n)%Z then Some results else None).

Definition efetch (args : efetch_args) : io string := fun w =>
  let '(_, w') := emit (Efetch args) w in
  (efetch_read env (log w) args, w').

(** One turn of the loop of [fetch_records]. *)
Definition fetch_batch (webenv query_key : string) (batch_size : Z)
    (records : list string) (start : Z) : io (list string) :=
  text ← efetch {| db := "nucleotide"; rettype := "gb"; retmode := "text";
                   retstart := start; retmax := batch_size;
                   webenv := webenv; query_key := query_key |};
  blocks ← lift (blocks_of text);
  _ ← emit (Sleep 340);
  mret (records ++ blocks).

Definition fetch_records (webenv query_key : string) (count batch_size : Z)
  : io (list string) :=
  starts ← lift (range 0 count batch_size);
  for_each starts [] (fetch_batch webenv query_key batch_size).

(** The three variables of the loop over the lines of a record. *)
Record fields : Type := Fields {
  accession : option string;
  seq_length : option Z;        (* the variable [length] *)
  description : option string
}.

Definition no_fields : fields :=
  {| accession := None; seq_length := None; description := None |}.

Definition scan_line (v : fields) (line : string) : result fields :=
  if Str.startswith line "ACCESSION" then
    a ← index (Str.split_ws line) 1;
    mret {| accession := Some a; seq_length := seq_length v;
            description := description v |}
  else if Str.startswith line "DEFINITION" then
    mret {| accession := accession v; seq_length := seq_length v;
            description :=
              Some (Str.strip (Str.replace (Str.drop 12 line) LF " ")) |}
  else if Str.startswith line "LOCUS" then
    t ← index (Str.split_ws line) 2;
    n ← Str.int t;
    mret {| accession := accession v; seq_length := Some n;
            description := description v |}
  else mret v.

Definition scan_lines (lines : list string) : result fields :=
  for_each lines no_fields scan_line.

(** [if accession: data.append([accession, length, description])] *)
Definition append_row (data : list row) (v : fields) : list row :=
  match accession v with
  | Some a =>
      if truthy_str a
      then data ++ [ {| Accession := a; Length := seq_length v;
                        Description := description v |} ]
      else data
  | None => data
  end.

(** One turn of the outer loop of [parse_records]. *)
Definition parse_record (data : list row) (record : string) : result (list row) :=
  lines ← Str.split record LF;
  v ← scan_lines lines;
  mret (append_row data v).

Definition parse_records (records : list string) : result (list row) :=
  for_each records [] parse_record.

Definition generate_csv (data : list row) (filename : string) : io frame_ref :=
  df ← Pandas.data_frame env data ["Accession"; "Length"; "Description"];
  _ ← Pandas.to_csv env df filename false;
  mret df.

(** [df = df.sort_values('Length', ascending=False)] binds the local name
    to what the method returns; [inplace] is left at its default, so that is
    a new frame. The nine calls to [plt] follow in order. *)
Definition plot_lengths (df : frame_ref) (filename : string) : io unit :=
  sorted ← Pandas.sort_values env df "Length" false false;
  match sorted with
  | None => lift (Raise TypeError)
  | Some df =>
      f ← read_frame df;
      calls env
        [ PltFigure 12 6;
          PltPlot (Column f "Accession") (Column f "Length") "o-";
          PltXticks 90;
          PltXlabel "Accession Number";
          PltYlabel "Sequence Length";
          PltTitle "Sequence Length Distribution";
          PltTightLayout;
          PltSavefig filename;
          PltClose ]
  end.

End Methods.
End NCBIRetriever.

(** ** The entry point *)

(** The six lines the operator types. *)
Record answers : Type := Answers {
  ans_email : string;
  ans_api_key : string;
  ans_taxid : string;
  ans_min_len : string;
  ans_max_len : string;
  ans_output : string
}.

Definition input (prompt answer : string) : io string :=
  _ ← emit (Input prompt); mret answer.

(** [int(s) if s else None] *)
Definition int_or_none (s : string) : result (option Z) :=
  if truthy_str s then n ← Str.int s; mret (Some n) else mret None.

Definition main (env : environment) (ans : answers) : io unit :=
  _ ← emit (Print "NCBI GenBank Data Retriever");
  _ ← emit (Print "---------------------------");
  email ← input "Enter your NCBI registered email: " (ans_email ans);
  api_key ← input "Enter your NCBI API key (optional, press Enter to skip): "
                  (ans_api_key ans);
  taxid ← input "Enter Taxonomic ID: " (ans_taxid ans);
  min_len ← input "Enter minimum sequence length (optional, press Enter to skip): "
                  (ans_min_len ans);
  max_len ← input "Enter maximum sequence length (optional, press Enter to skip): "
                  (ans_max_len ans);
  output ← input "Enter output base name (default: 'output'): " (ans_output ans);
  let output := if truthy_str output then output else "output" in
  min_len ← lift (int_or_none min_len);
  max_len ← lift (int_or_none max_len);
  _ ← NCBIRetriever.init email api_key;
  _ ← emit (Print ("Searching for taxID: " +:+ taxid +:+ "..."));
  results ← NCBIRetriever.search_taxid env taxid min_len max_len;
  match results with   (* [if not results]: a dictionary with keys is true *)
  | None => lift (Raise (SystemExit "No records found"))
  | Some results =>
      count ← lift (Str.int (Count results));
      _ ← emit (Print ("Found " +:+ Str.of_Z count +:+ " records"));
      records ← NCBIRetriever.fetch_records env (WebEnv results) (QueryKey results)
                  (Z.min count 100) 10;
      data ← lift (NCBIRetriever.parse_records records);
      let csv_file := output +:+ ".csv" in
      df ← NCBIRetriever.generate_csv env data csv_file;
      _ ← emit (Print ("Saved report to " +:+ csv_file));
      let plot_file := output +:+ ".png" in
      _ ← NCBIRetriever.plot_lengths env df plot_file;
      emit (Print ("Saved plot to " +:+ plot_file))
  end.

(** * Vocabulary of the properties *)

(** [s] ends with [suffix] *)
Definition ends_with (s suffix : string) : Prop :=
  exists pre, s = pre +:+ suffix.

(** The lines of a record, [record.split('\n')]. *)
Definition lines_of (record : string) : list string :=
  Str.split_go (S (String.length record)) LF "" record.

(** The last line that begins with [marker], if any. *)
Fixpoint last_with (marker : string) (lines : list string) : option string :=
  match lines with
  | [] => None
  | line :: rest =>
      match last_with marker rest with
      | Some l => Some l
      | None => if Str.startswith line marker then Some line else None
      end
  end.

Definition to_option {A} (r : result A) : option A :=
  match r with Ok a => Some a | Raise _ => None end.

(** The value each kind of line gives to its field. *)
Definition accession_of (line : string) : option string :=
  Str.split_ws line !! 1%nat.

Definition length_of (line : string) : option Z :=
  t ← Str.split_ws line !! 2%nat; to_option (Str.int t).

Definition description_of (line : string) : string :=
  Str.strip (Str.replace (Str.drop 12 line) LF " ").

(** A line the scan gets past: an ACCESSION line has a second token, a LOCUS
    line has a third token that reads as an integer. *)
Definition line_ok (line : string) : bool :=
  (if Str.startswith line "ACCESSION" then bool_decide (is_Some (accession_of line))
   else true)
  && (if Str.startswith line "LOCUS" then bool_decide (is_Some (length_of line))
      else true).

Definition record_ok (record : string) : bool := forallb line_ok (lines_of record).

(** The row a record stands for: the second token of its last ACCESSION
    line, the integer third token of its last LOCUS line, the cleaned tail of
    its last DEFINITION line. *)
Definition row_of (record : string) : option row :=
  let lines := lines_of record in
  a ← last_with "ACCESSION" lines ≫= accession_of;
  Some {| Accession := a;
          Length := last_with "LOCUS" lines ≫= length_of;
          Description := description_of <$> last_with "DEFINITION" lines |}.

(** The block of the extraction scenario. *)
Definition scenario_block : string :=
  "LOCUS       AB123456  1500 bp ..." +:+ LF +:+
  "DEFINITION  Test organism gene" +:+ LF +:+
  "ACCESSION   AB123456" +:+ LF.

(** The page requests among the events of a log. *)
Definition efetch_requests (events : list event) : list efetch_args :=
  omap (fun e => match e with Efetch args => Some args | _ => None end) events.

(** The request [fetch_records] makes for the page at [start]. *)
Definition page_request (webenv query_key : string) (batch_size start : Z)
  : efetch_args :=
  {| db := "nucleotide"; rettype := "gb"; retmode := "text";
     retstart := start; retmax := batch_size;
     webenv := webenv; query_key := query_key |}.

(** A service that finds twenty-five records and answers every page with
    one record named after the offset. *)
Definition sample_environment : environment :=
  {| esearch_read := fun _ _ =>
       Ok {| Count := "25"; WebEnv := "MCID_1"; QueryKey := "1" |};
     efetch_read := fun _ args =>
       Ok ("ACCESSION   R" +:+ Str.of_Z (retstart args) +:+ LF +:+ record_separator);
     library_raises := fun _ _ => None |}.

(** Events of the fetch and report stages. *)
Definition is_fetch_or_output (e : event) : bool :=
  match e with
  | Efetch _ | Sleep _ | Library _ => true
  | Esearch _ _ _ | Input _ | Print _ => false
  end.

(** What [main] logs up to and including the search. *)
Definition events_until_search (taxid term : string) : list event :=
  [ Print "NCBI GenBank Data Retriever";
    Print "---------------------------";
    Input "Enter your NCBI registered email: ";
    Input "Enter your NCBI API key (optional, press Enter to skip): ";
    Input "Enter Taxonomic ID: ";
    Input "Enter minimum sequence length (optional, press Enter to skip): ";
    Input "Enter maximum sequence length (optional, press Enter to skip): ";
    Input "Enter output base name (default: 'output'): ";
    Print ("Searching for taxID: " +:+ taxid +:+ "...");
    Esearch "nucleotide" term "y" ].

(** A service that finds nothing. *)
Definition empty_environment : environment :=
  {| esearch_read := fun _ _ =>
       Ok {| Count := "0"; WebEnv := "MCID_0"; QueryKey := "1" |};
     efetch_read := fun _ _ => Raise (TransportFailure "no result set");
     library_raises := fun _ _ => None |}.

Definition sample_answers : answers :=
  {| ans_email := "operator@example.org"; ans_api_key := ""; ans_taxid := "9606";
     ans_min_len := "100"; ans_max_len := ""; ans_output := "" |}.

(** The blocks kept from a response, as a list. *)
Definition kept_blocks (text : string) : list string :=
  but_last (Str.split_go (S (String.length text)) record_separator "" text).

(** What one answered page adds to the log. *)
Definition page_events (webenv query_key : string) (batch_size start : Z)
  : list event :=
  [Efetch (page_request webenv query_key batch_size start); Sleep 340].

(** What [main] logs before it converts the two lengths. *)
Definition prompt_events : list event :=
  [ Print "NCBI GenBank Data Retriever";
    Print "---------------------------";
    Input "Enter your NCBI registered email: ";
    Input "Enter your NCBI API key (optional, press Enter to skip): ";
    Input "Enter Taxonomic ID: ";
    Input "Enter minimum sequence length (optional, press Enter to skip): ";
    Input "Enter maximum sequence length (optional, press Enter to skip): ";
    Input "Enter output base name (default: 'output'): " ].

(** The columns of the report, and the frame built from the rows. *)
Definition report_columns : list string := ["Accession"; "Length"; "Description"].

Definition report_table (data : list row) : frame := DataFrame data report_columns.

(** The calls of [generate_csv] and of [plot_lengths] on a frame [f]. *)
Definition csv_calls (data : list row) (filename : string) : list library_call :=
  [ NewDataFrame data report_columns;
    ToCsv (report_table data) filename false ].

Definition plot_calls (f : frame) (filename : string) : list library_call :=
  [ SortValues f "Length" false false;
    PltFigure 12 6;
    PltPlot (Column (SortedBy f "Length" false) "Accession")
            (Column (SortedBy f "Length" false) "Length") "o-";
    PltXticks 90;
    PltXlabel "Accession Number";
    PltYlabel "Sequence Length";
    PltTitle "Sequence Length Distribution";
    PltTightLayout;
    PltSavefig filename;
    PltClose ].

(** What [main] logs once the rows are extracted, when no call raises. *)
Definition report_events (output : string) (data : list row) : list event :=
  (Library <$> csv_calls data (output +:+ ".csv"))
  ++ [Print ("Saved report to " +:+ output +:+ ".csv")]
  ++ (Library <$> plot_calls (report_table data) (output +:+ ".png"))
  ++ [Print ("Saved plot to " +:+ output +:+ ".png")].


(** The base name of the two output files. *)
Definition output_base (ans : answers) : string :=
  if truthy_str (ans_output ans) then ans_output ans else "output".

(** [c] occurs in [s]; some character of [s] is white space. *)
Fixpoint contains_char (c : ascii) (s : string) : bool :=
  match s with
  | "" => false
  | String a s' => if decide (a = c) then true else contains_char c s'
  end.

Fixpoint has_space (s : string) : bool :=
  match s with
  | "" => false
  | String a s' => Str.isspace a || has_space s'
  end.

(** A line that begins with one of the three markers. *)
Definition is_field_line (line : string) : bool :=
  Str.startswith line "ACCESSION" || Str.startswith line "DEFINITION"
  || Str.startswith line "LOCUS".

(** A service whose second page fails. *)
Definition failing_environment : environment :=
  {| esearch_read := fun _ _ =>
       Ok {| Count := "25"; WebEnv := "MCID_1"; QueryKey := "1" |};
     efetch_read := fun _ args =>
       if (retstart args =? 10)%Z then Raise (TransportFailure "HTTP 502")
       else Ok ("ACCESSION   R" +:+ Str.of_Z (retstart args) +:+ LF +:+ record_separator);
     library_raises := fun _ _ => None |}.

(** A service that answers a page request by a function of the request. *)
Definition answering (count : string) (respond : efetch_args -> string) : environment :=
  {| esearch_read := fun _ _ =>
       Ok {| Count := count; WebEnv := "MCID_1"; QueryKey := "1" |};
     efetch_read := fun _ args => Ok (respond args);
     library_raises := fun _ _ => None |}.

(** The world once the retriever is constructed. *)
Definition configured (w : world) (email api_key : string) : world :=
  (NCBIRetriever.init email api_key w).2.

(** The world in which [main] starts to fetch: the prompts are answered,
    the retriever is constructed, the search found [count] records. *)
Definition searched_world (ans : answers) (w : world) (term : string) (count : Z)
  : world :=
  add_log (configured (add_log w prompt_events) (ans_email ans) (ans_api_key ans))
    [ Print ("Searching for taxID: " +:+ ans_taxid ans +:+ "...");
      Esearch "nucleotide" term "y";
      Print ("Found " +:+ Str.of_Z count +:+ " records") ].

(** Events that write a file or draw the chart. *)
Definition is_output (e : event) : bool :=
  match e with
  | Library _ => true
  | _ => false
  end.

(** Answers with a minimum length that is not a number. *)
Definition invalid_answers : answers :=
  {| ans_email := "operator@example.org"; ans_api_key := ""; ans_taxid := "9606";
     ans_min_len := "long"; ans_max_len := ""; ans_output := "" |}.

(** [sep] occurs somewhere in [s]. *)
Definition occurs (sep s : string) : Prop :=
  exists pre post, s = pre +:+ sep +:+ post.

(** * Properties *)

(** ** Ranges *)

Example range_25_10 : range 0 25 10 = Ok [0; 10; 20]%Z.
Proof. reflexivity. Qed.

Example range_neg : range 5 0 (-2) = Ok [5; 3; 1]%Z.
Proof. reflexivity. Qed.

(** ** Strings *)

Section StringFacts.
Implicit Types s t p sep cur : string.

Lemma str_app_nil_l s : "" +:+ s = s.
Proof. reflexivity. Qed.

Lemma str_app_cons c s t : String c s +:+ t = String c (s +:+ t).
Proof. reflexivity. Qed.

Lemma str_app_nil_r s : s +:+ "" = s.
Proof. induction s as [|c s IH]; [reflexivity|]. by rewrite str_app_cons, IH. Qed.

Lemma str_app_assoc s t u : (s +:+ t) +:+ u = s +:+ (t +:+ u).
Proof. induction s as [|c s IH]; [reflexivity|]. by rewrite !str_app_cons, IH. Qed.

Lemma str_app_length s t :
  String.length (s +:+ t) = (String.length s + String.length t)%nat.
Proof. induction s as [|c s IH]; [reflexivity|]. rewrite str_app_cons. simpl. by rewrite IH. Qed.

Lemma str_app_eq_nil s t : s +:+ t = "" -> s = "" /\ t = "".
Proof.
  destruct s; [rewrite str_app_nil_l; by intros ->|].
  rewrite str_app_cons. discriminate.
Qed.

Lemma is_empty_true s : Str.is_empty s = true <-> s = "".
Proof. destruct s; simpl; split; congruence. Qed.

Lemma is_empty_snoc s c : Str.is_empty (s +:+ Str.of_char c) = false.
Proof. by destruct s. Qed.

Lemma drop_app p s : Str.drop (String.length p) (p +:+ s) = s.
Proof. induction p as [|c p IH]; [reflexivity|]. rewrite str_app_cons. simpl. apply IH. Qed.

Lemma startswith_app s p :
  Str.startswith s p = true -> s = p +:+ Str.drop (String.length p) s.
Proof.
  revert s. induction p as [|b p IH]; intros s; [reflexivity|].
  destruct s as [|a s]; simpl; [discriminate|].
  case_decide; [|discriminate]. subst a. intros H.
  rewrite str_app_cons. f_equal. by apply IH.
Qed.

Lemma startswith_prefix p s : Str.startswith (p +:+ s) p = true.
Proof.
  induction p as [|b p IH]; [reflexivity|].
  rewrite str_app_cons. simpl. by case_decide.
Qed.

Lemma startswith_refl s : Str.startswith s s = true.
Proof. rewrite <- (str_app_nil_r s) at 1. apply startswith_prefix. Qed.

Lemma str_app_eq_self s t : s +:+ t = s -> t = "".
Proof.
  intros H. apply (inj (String.app s)). by rewrite str_app_nil_r.
Qed.

Lemma strip_prefix_Some p s rest :
  Str.strip_prefix p s = Some rest -> s = p +:+ rest.
Proof.
  unfold Str.strip_prefix. destruct (Str.startswith s p) eqn:E; [|discriminate].
  intros [= <-]. by apply startswith_app.
Qed.

Lemma strip_prefix_None p s t : Str.strip_prefix p s = None -> s <> p +:+ t.
Proof.
  unfold Str.strip_prefix. destruct (Str.startswith s p) eqn:E; [discriminate|].
  intros _ ->. by rewrite startswith_prefix in E.
Qed.

(** Joining the segments with the separator gives the text back. *)
Lemma join_cons sep p ps :
  ps <> [] -> Str.join sep (p :: ps) = p +:+ sep +:+ Str.join sep ps.
Proof. by destruct ps. Qed.

Lemma split_go_nonempty fuel sep cur s : Str.split_go fuel sep cur s <> [].
Proof.
  revert cur s. induction fuel as [|fuel IH]; intros cur s; simpl; [done|].
  destruct (Str.strip_prefix sep s); [done|]. destruct s; [done|]. apply IH.
Qed.

Lemma join_split_go fuel sep cur s :
  sep <> "" -> (String.length s < fuel)%nat ->
  Str.join sep (Str.split_go fuel sep cur s) = cur +:+ s.
Proof.
  intros Hsep. revert cur s.
  induction fuel as [|fuel IH]; intros cur s Hlen; [lia|]. simpl.
  destruct (Str.strip_prefix sep s) as [rest|] eqn:E.
  - apply strip_prefix_Some in E. subst s.
    rewrite join_cons by apply split_go_nonempty.
    rewrite IH; [done|]. rewrite str_app_length in Hlen.
    destruct sep; [done|]. simpl in Hlen. lia.
  - destruct s as [|c s]; [by rewrite str_app_nil_r|].
    rewrite IH by (simpl in Hlen; lia).
    by rewrite str_app_assoc.
Qed.

(** Every run returned by [split()] has at least one character. *)
Lemma split_ws_go_nonempty cur s t :
  t ∈ Str.split_ws_go cur s -> t <> "".
Proof.
  revert cur. induction s as [|c s IH]; intros cur; simpl.
  - unfold Str.flush. destruct (Str.is_empty cur) eqn:E; [by intros ?%elem_of_nil|].
    intros ->%list_elem_of_singleton. intros ->. discriminate.
  - destruct (Str.isspace c); [|apply IH].
    rewrite elem_of_app. intros [H|H]; [|by eapply IH].
    unfold Str.flush in H. destruct (Str.is_empty cur) eqn:E; [by apply elem_of_nil in H|].
    apply list_elem_of_singleton in H as ->. intros ->. discriminate.
Qed.

Lemma split_ws_nonempty s i t : Str.split_ws s !! i = Some t -> truthy_str t = true.
Proof.
  intros H. assert (t <> "") as Hne.
  { eapply split_ws_go_nonempty, list_elem_of_lookup_2, H. }
  unfold truthy_str. by destruct t.
Qed.

End StringFacts.

(** ** Splitting a batch response into blocks *)

Section Blocks.
Implicit Types s t cur text : string.

Lemma but_last_snoc {A} (xs : list A) (x : A) : but_last (xs ++ [x]) = xs.
Proof. unfold but_last. apply removelast_last. Qed.

Lemma snoc_last {A} (xs : list A) :
  xs <> [] -> exists x, last xs = Some x /\ xs = but_last xs ++ [x].
Proof.
  intros Hne. destruct (exists_last Hne) as (ys & x & ->).
  exists x. by rewrite last_snoc, but_last_snoc.
Qed.

(** The separator has no proper overlap with itself, so a text that starts
    with it ends with it only if what follows is empty or ends with it. *)
Lemma ends_with_after_separator rest :
  ends_with (record_separator +:+ rest) record_separator <->
  rest = "" \/ ends_with rest record_separator.
Proof.
  split.
  - intros [pre H].
    destruct pre as [|a [|b [|c pre]]];
      unfold record_separator, LF in H;
      rewrite ?str_app_cons, ?str_app_nil_l in H; simplify_eq.
    + by left.
    + right. by exists pre.
  - intros [->|[pre ->]].
    + by exists "".
    + exists (record_separator +:+ pre). by rewrite str_app_assoc.
Qed.

Lemma ends_with_skip c s :
  Str.strip_prefix record_separator (String c s) = None ->
  ends_with (String c s) record_separator <-> ends_with s record_separator.
Proof.
  intros Hno. split.
  - intros [pre H]. destruct pre as [|a pre].
    + rewrite str_app_nil_l in H. rewrite H in Hno.
      by apply (strip_prefix_None _ _ "") in Hno.
    + rewrite str_app_cons in H. injection H as _ ->. by exists pre.
  - intros [pre ->]. by exists (String c pre).
Qed.

Lemma last_split_go fuel cur s :
  (String.length s < fuel)%nat ->
  last (Str.split_go fuel record_separator cur s) = Some "" <->
  (cur = "" /\ s = "") \/ ends_with s record_separator.
Proof.
  revert cur s. induction fuel as [|fuel IH]; intros cur s Hlen; [lia|].
  simpl. destruct (Str.strip_prefix record_separator s) as [rest|] eqn:E.
  - apply strip_prefix_Some in E. subst s.
    rewrite last_cons.
    destruct (snoc_last _ (split_go_nonempty fuel record_separator "" rest))
      as (x & Hx & _).
    assert (Hfuel : (String.length rest < fuel)%nat).
    { rewrite str_app_length in Hlen. simpl in Hlen. lia. }
    specialize (IH "" rest Hfuel). rewrite Hx in *.
    rewrite IH, ends_with_after_separator. split.
    + intros [[_ ->]|H]; right; [by left|by right].
    + intros [[_ H]|[->|H]]; [by apply str_app_eq_nil in H as [? _]|left|right]; done.
  - destruct s as [|c s].
    + simpl. split.
      * intros [= ->]. by left.
      * intros [[-> _]|[pre H]]; [done|].
        symmetry in H. by apply str_app_eq_nil in H as [_ ?].
    + rewrite IH by (simpl in Hlen; lia).
      rewrite ends_with_skip by done. split.
      * intros [[H _]|H]; [|by right]. by apply str_app_eq_nil in H as [_ ?].
      * intros [[_ ?]|H]; [done|by right].
Qed.

End Blocks.

(** ** Scanning the lines of a record *)

Section Scan.
Import NCBIRetriever.
Implicit Types (line record : string) (lines : list string) (v : fields)
  (data : list row).

Lemma for_each_cons {A S} (x : A) (xs : list A) (s : S) (body : S -> A -> result S) :
  for_each (x :: xs) s body =
  match body s x with
  | Ok s' => for_each xs s' body
  | Raise e => Raise e
  end.
Proof. reflexivity. Qed.

Lemma split_lines record : Str.split record LF = Ok (lines_of record).
Proof. reflexivity. Qed.

Lemma markers_exclusive line :
  (Str.startswith line "ACCESSION" = true ->
   Str.startswith line "DEFINITION" = false /\ Str.startswith line "LOCUS" = false)
  /\ (Str.startswith line "DEFINITION" = true -> Str.startswith line "LOCUS" = false).
Proof. destruct line as [|c line]; [done|]. simpl. repeat case_decide; by simplify_eq. Qed.

Lemma int_raises s e : Str.int s = Raise e -> e = ValueError.
Proof.
  unfold Str.int.
  destruct (match Str.int_rstrip (Str.int_lstrip s) with
            | String "-" r => (true, r)
            | String "+" r => (false, r)
            | _ => (false, Str.int_rstrip (Str.int_lstrip s))
            end) as [neg body].
  destruct (Str.int_digits false 0 body); [|congruence].
  destruct (Str.max_str_digits <? Str.digit_count body)%Z; congruence.
Qed.

(** What one line does to the three variables. *)
Lemma scan_line_ok v line :
  line_ok line = true ->
  scan_line v line =
  Ok {| accession :=
          if Str.startswith line "ACCESSION" then accession_of line else accession v;
        seq_length :=
          if Str.startswith line "LOCUS" then length_of line else seq_length v;
        description :=
          if Str.startswith line "DEFINITION" then Some (description_of line)
          else description v |}.
Proof.
  unfold line_ok, scan_line, accession_of, length_of, index.
  destruct (markers_exclusive line) as [HA HD].
  destruct (Str.startswith line "ACCESSION") eqn:EA.
  - destruct (HA eq_refl) as [HD' HL']. rewrite ?HD', ?HL', andb_true_r.
    intros [a Ha]%bool_decide_eq_true. rewrite Ha. by destruct v.
  - destruct (Str.startswith line "DEFINITION") eqn:ED.
    + rewrite (HD eq_refl). by destruct v.
    + destruct (Str.startswith line "LOCUS") eqn:EL; [|by destruct v].
      simpl. intros [n Hn]%bool_decide_eq_true.
      destruct (Str.split_ws line !! 2%nat) as [t|]; simpl in *; [|done].
      destruct (Str.int t); simpl in *; by simplify_eq.
Qed.

Lemma scan_line_bad v line :
  line_ok line = false ->
  scan_line v line = Raise IndexError \/ scan_line v line = Raise ValueError.
Proof.
  unfold line_ok, scan_line, accession_of, length_of, index.
  destruct (markers_exclusive line) as [HA HD].
  destruct (Str.startswith line "ACCESSION") eqn:EA.
  - destruct (HA eq_refl) as [HD' HL']. rewrite ?HD', ?HL', andb_true_r.
    intros H%bool_decide_eq_false.
    destruct (Str.split_ws line !! 1%nat); [by destruct H|by left].
  - destruct (Str.startswith line "DEFINITION") eqn:ED.
    + by rewrite (HD eq_refl).
    + destruct (Str.startswith line "LOCUS") eqn:EL; [|done].
      simpl. intros H%bool_decide_eq_false.
      destruct (Str.split_ws line !! 2%nat) as [t|]; simpl in *; [|by left].
      destruct (Str.int t) as [n|e] eqn:Et; simpl in *; [by destruct H|].
      right. by rewrite (int_raises _ _ Et).
Qed.

(** The scan completes exactly on lines that are all well formed, and then
    every variable holds what the last line with its marker gave it. *)
Lemma scan_from_ok lines v0 :
  forallb line_ok lines = true ->
  for_each lines v0 scan_line =
  Ok {| accession := from_option accession_of (accession v0) (last_with "ACCESSION" lines);
        seq_length := from_option length_of (seq_length v0) (last_with "LOCUS" lines);
        description :=
          from_option (Some ∘ description_of) (description v0)
                      (last_with "DEFINITION" lines) |}.
Proof.
  revert v0. induction lines as [|line lines IH]; intros v0; cbn [forallb].
  - by destruct v0.
  - intros [Hline Hrest]%andb_true_iff.
    rewrite for_each_cons, (scan_line_ok _ _ Hline), (IH _ Hrest).
    cbn [last_with accession seq_length description]. f_equal. f_equal.
    + destruct (last_with "ACCESSION" lines); [done|].
      by destruct (Str.startswith line "ACCESSION").
    + destruct (last_with "LOCUS" lines); [done|].
      by destruct (Str.startswith line "LOCUS").
    + destruct (last_with "DEFINITION" lines); [done|].
      by destruct (Str.startswith line "DEFINITION").
Qed.

Lemma scan_from_bad lines v0 :
  forallb line_ok lines = false ->
  for_each lines v0 scan_line = Raise IndexError
  \/ for_each lines v0 scan_line = Raise ValueError.
Proof.
  revert v0. induction lines as [|line lines IH]; intros v0; cbn [forallb]; [done|].
  rewrite for_each_cons. destruct (line_ok line) eqn:Hline; cbn [andb].
  - intros Hrest. rewrite (scan_line_ok _ _ Hline). by apply IH.
  - intros _. by destruct (scan_line_bad v0 line Hline) as [-> | ->]; [left|right].
Qed.

End Scan.

(** ** Extracting rows *)

Section Extract.
Import NCBIRetriever.
Implicit Types (line record : string) (lines : list string) (v : fields)
  (data : list row) (records : list string).

(** [last_with] is the last line with the marker. *)
Lemma last_with_last marker pre l post :
  Str.startswith l marker = true ->
  Forall (fun x => Str.startswith x marker = false) post ->
  last_with marker (pre ++ l :: post) = Some l.
Proof.
  intros Hl Hpost.
  assert (Hp : last_with marker post = None).
  { induction Hpost as [|x post Hx _ IH]; [done|]. simpl. by rewrite IH, Hx. }
  induction pre as [|x pre IH]; simpl.
  - by rewrite Hp, Hl.
  - by rewrite IH.
Qed.

Lemma last_with_None marker lines :
  last_with marker lines = None <->
  Forall (fun x => Str.startswith x marker = false) lines.
Proof.
  induction lines as [|x lines IH]; simpl; [by split|].
  rewrite Forall_cons, <- IH.
  destruct (last_with marker lines), (Str.startswith x marker);
    split; try done; by intros [? ?].
Qed.

Lemma parse_record_unfold data record :
  parse_record data record =
  match scan_lines (lines_of record) with
  | Ok v => Ok (append_row data v)
  | Raise e => Raise e
  end.
Proof. reflexivity. Qed.

Lemma scan_lines_ok record :
  record_ok record = true ->
  scan_lines (lines_of record) =
  Ok {| accession := last_with "ACCESSION" (lines_of record) ≫= accession_of;
        seq_length := last_with "LOCUS" (lines_of record) ≫= length_of;
        description := description_of <$> last_with "DEFINITION" (lines_of record) |}.
Proof.
  intros H. unfold scan_lines. rewrite (scan_from_ok _ _ H).
  cbn [no_fields accession seq_length description].
  by destruct (last_with "ACCESSION" _), (last_with "LOCUS" _),
              (last_with "DEFINITION" _).
Qed.

Lemma scan_lines_bad record :
  record_ok record = false ->
  scan_lines (lines_of record) = Raise IndexError
  \/ scan_lines (lines_of record) = Raise ValueError.
Proof. apply scan_from_bad. Qed.

(** A token found on an ACCESSION line is never empty, so the test
    [if accession] only asks whether one was found. *)
Lemma append_row_ok data record :
  append_row data
    {| accession := last_with "ACCESSION" (lines_of record) ≫= accession_of;
       seq_length := last_with "LOCUS" (lines_of record) ≫= length_of;
       description := description_of <$> last_with "DEFINITION" (lines_of record) |}
  = data ++ option_list (row_of record).
Proof.
  unfold append_row, row_of. cbn [accession seq_length description].
  destruct (last_with "ACCESSION" (lines_of record)) as [l|]; simpl.
  - destruct (accession_of l) as [a|] eqn:Ha; simpl.
    + by rewrite (split_ws_nonempty _ _ _ Ha).
    + by rewrite app_nil_r.
  - by rewrite app_nil_r.
Qed.

Lemma parse_record_ok data record :
  record_ok record = true ->
  parse_record data record = Ok (data ++ option_list (row_of record)).
Proof.
  intros H. by rewrite parse_record_unfold, (scan_lines_ok _ H), append_row_ok.
Qed.

Lemma parse_record_bad data record :
  record_ok record = false ->
  parse_record data record = Raise IndexError
  \/ parse_record data record = Raise ValueError.
Proof.
  intros H. rewrite parse_record_unfold.
  by destruct (scan_lines_bad _ H) as [-> | ->]; [left|right].
Qed.

Lemma parse_from_ok records data :
  forallb record_ok records = true ->
  for_each records data parse_record = Ok (data ++ omap row_of records).
Proof.
  revert data. induction records as [|r records IH]; intros data; cbn [forallb].
  - intros _. by rewrite app_nil_r.
  - intros [Hr Hrest]%andb_true_iff.
    rewrite for_each_cons, (parse_record_ok _ _ Hr), (IH _ Hrest).
    cbn [omap list_omap]. rewrite <- app_assoc. do 2 f_equal.
    by destruct (row_of r).
Qed.

Lemma parse_from_bad records data :
  forallb record_ok records = false ->
  for_each records data parse_record = Raise IndexError
  \/ for_each records data parse_record = Raise ValueError.
Proof.
  revert data. induction records as [|r records IH]; intros data; cbn [forallb]; [done|].
  rewrite for_each_cons. destruct (record_ok r) eqn:Hr; cbn [andb].
  - intros Hrest. rewrite (parse_record_ok _ _ Hr). by apply IH.
  - intros _. by destruct (parse_record_bad data r Hr) as [-> | ->]; [left|right].
Qed.

End Extract.

Section ExtractionClaims.
Import NCBIRetriever.
Implicit Types (line record : string) (lines : list string) (v : fields)
  (data : list row) (records : list string).

Lemma last_with_Some marker lines l :
  last_with marker lines = Some l -> l ∈ lines /\ Str.startswith l marker = true.
Proof.
  induction lines as [|x lines IH]; simpl; [done|].
  destruct (last_with marker lines) as [l'|].
  - intros [= ->]. destruct (IH eq_refl) as [? ?]. split; [by right|done].
  - destruct (Str.startswith x marker) eqn:E; [|done].
    intros [= ->]. split; [by left|done].
Qed.

Lemma record_ok_accession record l :
  record_ok record = true ->
  last_with "ACCESSION" (lines_of record) = Some l ->
  is_Some (accession_of l).
Proof.
  intros Hok [Hin Hst]%last_with_Some.
  unfold record_ok in Hok. rewrite forallb_forall in Hok.
  apply list_elem_of_In, Hok in Hin. unfold line_ok in Hin.
  rewrite Hst in Hin. apply andb_true_iff in Hin as [Hin _].
  by apply bool_decide_eq_true in Hin.
Qed.

(** C1, as stated, fails: a LOCUS line without a third token raises
    [IndexError], and one whose third token is not an integer raises
    [ValueError]; either aborts the extraction although the block has an
    accession. *)
Lemma malformed_locus_aborts_extraction :
  parse_records ["LOCUS       AB123456" +:+ LF +:+ "ACCESSION   AB123456"]
    = Raise IndexError
  /\ parse_records ["LOCUS       AB123456  unknown bp" +:+ LF +:+ "ACCESSION   AB123456"]
    = Raise ValueError.
Proof. split; vm_compute; reflexivity. Qed.

(** C1, amended: extraction fails exactly when some block has an ACCESSION
    line without a second token or a LOCUS line whose third token is absent
    or is not read by [int()] (not a decimal literal, or one of more than
    4300 digits), and then with [IndexError] or [ValueError]; on every
    other input it returns the rows of the blocks, and a block with an
    accession but no LOCUS and no DEFINITION line gives a row whose length
    and description are null. *)
Theorem extraction_fails_only_on_malformed_lines :
  (forall records,
     if forallb record_ok records
     then parse_records records = Ok (omap row_of records)
     else parse_records records = Raise IndexError
          \/ parse_records records = Raise ValueError)
  /\ (forall record l,
        record_ok record = true ->
        last_with "ACCESSION" (lines_of record) = Some l ->
        last_with "LOCUS" (lines_of record) = None ->
        last_with "DEFINITION" (lines_of record) = None ->
        exists a, accession_of l = Some a
                  /\ parse_records [record]
                     = Ok [ {| Accession := a; Length := None; Description := None |} ]).
Proof.
  split.
  - intros records. unfold parse_records.
    destruct (forallb record_ok records) eqn:E.
    + by rewrite (parse_from_ok _ _ E).
    + by apply parse_from_bad.
  - intros record l Hok Ha Hl Hd.
    destruct (record_ok_accession _ _ Hok Ha) as [a Hacc]. exists a. split; [done|].
    unfold parse_records. rewrite parse_from_ok by (cbn [forallb]; by rewrite Hok).
    cbn [omap list_omap]. unfold row_of. by rewrite Ha, Hl, Hd; simpl; rewrite Hacc.
Qed.

Lemma extraction_fails_only_on_malformed_lines_witness :
  parse_records ["ACCESSION   AB123456"; "COMMENT     nothing to see"]
  = Ok [ {| Accession := "AB123456"; Length := None; Description := None |} ]
  /\ exists a, accession_of "ACCESSION   AB123456" = Some a
       /\ parse_records ["ACCESSION   AB123456"]
          = Ok [ {| Accession := a; Length := None; Description := None |} ].
Proof.
  split.
  - exact (proj1 extraction_fails_only_on_malformed_lines
             ["ACCESSION   AB123456"; "COMMENT     nothing to see"]).
  - apply (proj2 extraction_fails_only_on_malformed_lines
             "ACCESSION   AB123456" "ACCESSION   AB123456"); reflexivity.
Defined.

(** C4, as stated, fails: with two ACCESSION lines the row carries the
    token of the second, not of the first; and a block with an ACCESSION
    line and a LOCUS line of two tokens gives no row at all. *)
Lemma accession_of_some_line_is_not_kept :
  (let record := "ACCESSION   AB123456" +:+ LF +:+ "ACCESSION   XY000001" in
   "ACCESSION   AB123456" ∈ lines_of record
   /\ Str.startswith "ACCESSION   AB123456" "ACCESSION" = true
   /\ accession_of "ACCESSION   AB123456" = Some "AB123456"
   /\ parse_records [record]
      = Ok [ {| Accession := "XY000001"; Length := None; Description := None |} ])
  /\ (let record := "ACCESSION   AB123456" +:+ LF +:+ "LOCUS       AB123456" in
      "ACCESSION   AB123456" ∈ lines_of record
      /\ Str.startswith "ACCESSION   AB123456" "ACCESSION" = true
      /\ accession_of "ACCESSION   AB123456" = Some "AB123456"
      /\ parse_records [record] = Raise IndexError).
Proof.
  split; cbv zeta; (split; [vm_compute; by left|]);
    repeat split; vm_compute; reflexivity.
Qed.

(** C4, amended: for every block whose ACCESSION lines all have a second
    token and whose LOCUS lines all have a third token that [int()] reads
    (a decimal literal of at most 4300 digits), and that
    has a line beginning with ACCESSION, exactly one row is emitted and its
    accession is the second token of the last such line, whatever DEFINITION
    and LOCUS lines are present; the scenario block yields
    [AB123456, 1500, Test organism gene]. *)
Theorem accession_is_second_token_of_last_accession_line :
  (forall data record l,
     record_ok record = true ->
     last_with "ACCESSION" (lines_of record) = Some l ->
     exists a,
       accession_of l = Some a
       /\ parse_record data record
          = Ok (data ++
                [ {| Accession := a;
                     Length := last_with "LOCUS" (lines_of record) ≫= length_of;
                     Description :=
                       description_of <$> last_with "DEFINITION" (lines_of record) |} ]))
  /\ parse_records [scenario_block]
     = Ok [ {| Accession := "AB123456"; Length := Some 1500%Z;
               Description := Some "Test organism gene" |} ].
Proof.
  split; [|vm_compute; reflexivity].
  intros data record l Hok Ha.
  destruct (record_ok_accession _ _ Hok Ha) as [a Hacc]. exists a. split; [done|].
  rewrite (parse_record_ok _ _ Hok). unfold row_of. rewrite Ha. simpl. by rewrite Hacc.
Qed.

Lemma accession_is_second_token_of_last_accession_line_witness :
  exists a,
    accession_of "ACCESSION   AB123456" = Some a
    /\ parse_record [] scenario_block
       = Ok ([] ++
             [ {| Accession := a;
                  Length := last_with "LOCUS" (lines_of scenario_block) ≫= length_of;
                  Description :=
                    description_of <$> last_with "DEFINITION" (lines_of scenario_block) |} ]).
Proof.
  apply (proj1 accession_is_second_token_of_last_accession_line
           [] scenario_block "ACCESSION   AB123456"); reflexivity.
Defined.

(** C7, as stated, fails: an accession found on the first line is lost,
    with the whole extraction, when a later LOCUS line is malformed. *)
Lemma found_accession_lost_to_malformed_locus :
  let record := "ACCESSION   AB123456" +:+ LF +:+ "LOCUS       AB123456  many bp" in
  scan_line no_fields "ACCESSION   AB123456"
  = Ok {| accession := Some "AB123456"; seq_length := None; description := None |}
  /\ parse_record [] record = Raise ValueError
  /\ parse_records [record] = Raise ValueError.
Proof. cbv zeta. repeat split; vm_compute; reflexivity. Qed.

(** C7, amended: a block without an ACCESSION line adds no row, whether its
    scan completes or raises; when the scan raises, the exception propagates
    and no row is added; when the scan completes with an accession found,
    exactly one row is appended, and its length and description are null
    when the block has no LOCUS line and no DEFINITION line. *)
Theorem row_emitted_iff_accession_found data record :
  match scan_lines (lines_of record) with
  | Raise e => parse_record data record = Raise e
  | Ok v =>
      parse_record data record
      = Ok (match accession v with
            | Some a => data ++ [ {| Accession := a; Length := seq_length v;
                                     Description := description v |} ]
            | None => data
            end)
      /\ (last_with "ACCESSION" (lines_of record) = None -> accession v = None)
      /\ (last_with "LOCUS" (lines_of record) = None -> seq_length v = None)
      /\ (last_with "DEFINITION" (lines_of record) = None -> description v = None)
  end.
Proof.
  rewrite parse_record_unfold.
  destruct (record_ok record) eqn:Hok.
  - rewrite (scan_lines_ok _ Hok). rewrite append_row_ok.
    cbn [accession seq_length description]. repeat split.
    + unfold row_of.
      destruct (last_with "ACCESSION" (lines_of record) ≫= accession_of); simpl;
        [done|by rewrite app_nil_r].
    + by intros ->.
    + by intros ->.
    + by intros ->.
  - by destruct (scan_lines_bad _ Hok) as [-> | ->].
Qed.

Lemma row_emitted_iff_accession_found_witness :
  parse_record [] "ACCESSION   AB123456"
  = Ok [ {| Accession := "AB123456"; Length := None; Description := None |} ]
  /\ parse_record [] "DEFINITION  no accession here" = Ok [].
Proof.
  split.
  - exact (proj1 (row_emitted_iff_accession_found [] "ACCESSION   AB123456")).
  - exact (proj1 (row_emitted_iff_accession_found [] "DEFINITION  no accession here")).
Defined.

(** C8: in the row a block emits, every field comes from the last line
    that begins with its marker ([last_with], see [last_with_last]):
    the accession from the last ACCESSION line, the length from the last
    LOCUS line, the description from the last DEFINITION line, each
    independently of the others and of earlier lines with the same marker. *)
Theorem last_marker_line_wins data record r :
  parse_record data record = Ok (data ++ [r]) ->
  last_with "ACCESSION" (lines_of record) ≫= accession_of = Some (Accession r)
  /\ Length r = last_with "LOCUS" (lines_of record) ≫= length_of
  /\ Description r = description_of <$> last_with "DEFINITION" (lines_of record).
Proof.
  intros H. destruct (record_ok record) eqn:Hok.
  - rewrite (parse_record_ok _ _ Hok) in H. injection H as H.
    apply app_inv_head in H. unfold row_of in H.
    destruct (last_with "ACCESSION" (lines_of record) ≫= accession_of) as [a|];
      simpl in H; [|done].
    by injection H as <-.
  - by destruct (parse_record_bad data record Hok) as [H'|H']; rewrite H' in H.
Qed.

Lemma last_marker_line_wins_witness :
  let record :=
    "LOCUS       AB1  10 bp" +:+ LF +:+ "ACCESSION   AB1" +:+ LF +:+
    "DEFINITION  first" +:+ LF +:+ "LOCUS       AB2  20 bp" +:+ LF +:+
    "DEFINITION  second" +:+ LF +:+ "ACCESSION   AB2" in
  let r := {| Accession := "AB2"; Length := Some 20%Z; Description := Some "second" |} in
  parse_record [] record = Ok ([] ++ [r])
  /\ last_with "ACCESSION" (lines_of record) = Some "ACCESSION   AB2"
  /\ last_with "ACCESSION" (lines_of record) ≫= accession_of = Some (Accession r)
  /\ Length r = last_with "LOCUS" (lines_of record) ≫= length_of
  /\ Description r = description_of <$> last_with "DEFINITION" (lines_of record).
Proof.
  intros record r.
  assert (H : parse_record [] record = Ok ([] ++ [r])) by (vm_compute; reflexivity).
  split; [exact H|]. split; [vm_compute; reflexivity|].
  exact (last_marker_line_wins [] record r H).
Defined.

End ExtractionClaims.

(** ** Blocks of a batch response *)

Section BlockClaims.
Implicit Types text : string.

Lemma blocks_of_unfold text :
  blocks_of text =
  Ok (but_last (Str.split_go (S (String.length text)) record_separator "" text)).
Proof. reflexivity. Qed.

(** C2, as stated, fails: the last segment is dropped whether or not it
    is empty. A response that does not end with the separator loses its
    last block. *)
Lemma last_block_dropped_without_final_separator :
  Str.split ("recA//" +:+ LF +:+ "recB") record_separator = Ok ["recA"; "recB"]
  /\ blocks_of ("recA//" +:+ LF +:+ "recB") = Ok ["recA"].
Proof. split; vm_compute; reflexivity. Qed.

(** C2, amended: splitting a response on the separator and dropping the
    last segment keeps, in order, every segment but the last; the segments
    joined by the separator are the response; the dropped segment is the
    text after the last separator, and it is empty exactly when the
    response is empty or ends with the separator. The response
    "recA//\nrecB//\n" yields exactly the blocks "recA" and "recB". *)
Theorem split_drops_exactly_the_last_segment :
  (forall text, exists blocks dropped,
     Str.split text record_separator = Ok (blocks ++ [dropped])
     /\ blocks_of text = Ok blocks
     /\ Str.join record_separator (blocks ++ [dropped]) = text
     /\ (dropped = "" <-> text = "" \/ ends_with text record_separator))
  /\ blocks_of ("recA//" +:+ LF +:+ "recB//" +:+ LF) = Ok ["recA"; "recB"].
Proof.
  split; [|vm_compute; reflexivity].
  intros text. rewrite blocks_of_unfold.
  set (segments := Str.split_go (S (String.length text)) record_separator "" text).
  destruct (snoc_last segments (split_go_nonempty _ _ _ _)) as (x & Hlast & Hsnoc).
  exists (but_last segments), x. repeat split.
  - change (Str.split text record_separator) with (Ok segments). by rewrite <- Hsnoc.
  - rewrite <- Hsnoc. unfold segments.
    rewrite join_split_go; [done|done|lia].
  - intros ->. apply (last_split_go (S (String.length text)) "" text) in Hlast; [|lia].
    destruct Hlast as [[_ ?]|?]; [by left|by right].
  - intros H. assert (last segments = Some "") as Hl.
    { apply last_split_go; [lia|]. destruct H as [->|H]; [by left|by right]. }
    rewrite Hlast in Hl. by injection Hl.
Qed.

End BlockClaims.

(** ** The search term *)

Section SearchTermClaims.
Import NCBIRetriever.

(** C6, as stated, fails: a minimum of 0 is supplied, yet no length clause
    is appended. *)
Lemma zero_minimum_appends_no_clause :
  search_term "9606" (Some 0%Z) (Some 500%Z) = "txid9606[Organism]".
Proof. reflexivity. Qed.

(** C6, amended: the term always begins with txid<id>[Organism]; the
    clause AND <min>:<max>[SLEN] is appended if and only if a minimum is
    supplied and is not zero, with an empty upper bound when the maximum is
    absent (or zero); without such a minimum the maximum is ignored. *)
Theorem length_clause_iff_nonzero_minimum taxid min_len max_len :
  let base := "txid" +:+ taxid +:+ "[Organism]" in
  Str.startswith (search_term taxid min_len max_len) base = true
  /\ (search_term taxid min_len max_len <> base <->
      exists m, min_len = Some m /\ m <> 0%Z)
  /\ (forall m, min_len = Some m -> m <> 0%Z ->
      search_term taxid min_len max_len =
      base +:+ " AND " +:+ Str.of_Z m +:+ ":"
           +:+ match max_len with
               | Some x => if (x =? 0)%Z then "" else Str.of_Z x
               | None => ""
               end
           +:+ "[SLEN]")
  /\ (min_len = None -> search_term taxid min_len max_len = base).
Proof.
  intros base. unfold search_term. cbv zeta. fold base.
  destruct min_len as [m|]; cbn [truthy_int fstr].
  - destruct (Z.eqb_spec m 0) as [->|Hm]; cbn [negb].
    + split; [apply startswith_refl|]. split; [|split].
      * split; [done|]. by intros (m & [= <-] & ?).
      * by intros m [= <-].
      * done.
    + split; [apply startswith_prefix|]. split; [|split].
      * split; [by exists m|]. intros _ H.
        by apply str_app_eq_self, str_app_eq_nil in H as [? _].
      * intros m' [= <-] _. unfold fstr_or_empty, truthy_int, fstr.
        destruct max_len as [x|]; [|done]. by destruct (x =? 0)%Z.
      * done.
  - split; [apply startswith_refl|]. split; [|split]; [|done..].
    split; [done|]. by intros (m & [=] & _).
Qed.

Lemma length_clause_iff_nonzero_minimum_witness :
  search_term "9606" (Some 100%Z) None = "txid9606[Organism] AND 100:[SLEN]"
  /\ search_term "9606" None (Some 500%Z) = "txid9606[Organism]".
Proof.
  destruct (length_clause_iff_nonzero_minimum "9606" (Some 100%Z) None)
    as (_ & _ & H & _).
  destruct (length_clause_iff_nonzero_minimum "9606" None (Some 500%Z))
    as (_ & _ & _ & H').
  split; [exact (H 100%Z eq_refl ltac:(discriminate))|exact (H' eq_refl)].
Defined.

(** C10: a minimum of 0 is treated exactly as no minimum: the term has no
    length clause, whatever maximum is supplied, the search runs as the one
    without any length bound, and a run where the operator answers 0 at the
    prompt for the minimum is the run where the answer is left empty. *)
Theorem zero_minimum_is_no_minimum (env : environment) taxid max_len :
  search_term taxid (Some 0%Z) max_len = "txid" +:+ taxid +:+ "[Organism]"
  /\ search_term taxid (Some 0%Z) max_len = search_term taxid None max_len
  /\ search_taxid env taxid (Some 0%Z) max_len = search_taxid env taxid None None
  /\ int_or_none "0" = Ok (Some 0%Z)
  /\ (forall email api_key max_answer output w,
        main env (Answers email api_key taxid "0" max_answer output) w
        = main env (Answers email api_key taxid "" max_answer output) w).
Proof.
  split; [reflexivity|]. split; [reflexivity|]. split; [reflexivity|].
  split; [reflexivity|]. intros email api_key max_answer output w. reflexivity.
Qed.

End SearchTermClaims.

(** ** Paging through the result set *)

Section World.
Lemma add_log_nil w : add_log w [] = w.
Proof. destruct w. unfold add_log. simpl. by rewrite app_nil_r. Qed.

Lemma add_log_add_log w xs ys : add_log (add_log w xs) ys = add_log w (xs ++ ys).
Proof. unfold add_log. simpl. by rewrite app_assoc. Qed.

Lemma io_bind_ok {A B} (m : io A) (k : A -> io B) w a w' :
  m w = (Ok a, w') -> (m ≫= k) w = k a w'.
Proof. intros H. unfold mbind, io_bind. by rewrite H. Qed.

Lemma io_bind_raise {A B} (m : io A) (k : A -> io B) w e w' :
  m w = (Raise e, w') -> (m ≫= k) w = (Raise e, w').
Proof. intros H. unfold mbind, io_bind. by rewrite H. Qed.

Lemma mbind_assoc_io {A B C} (m : io A) (k : A -> io B) (h : B -> io C) w :
  (m ≫= fun a => k a ≫= h) w = ((m ≫= k) ≫= h) w.
Proof. unfold mbind, io_bind. by destruct (m w) as [[a|e] w']. Qed.

Lemma for_each_io_cons {A S} (x : A) (xs : list A) (s : S) (body : S -> A -> io S) :
  for_each (x :: xs) s body = body s x ≫= fun s' => for_each xs s' body.
Proof. reflexivity. Qed.
End World.

Section Paging.
Import NCBIRetriever.
Context (env : environment).
Context (webenv query_key : string).

(** The values of [range(cur, stop, step)] for a positive step: there are
    as many as the least [n] with [cur + n * step >= stop]. *)
Lemma range_up_spec fuel cur stop step :
  (0 < step)%Z -> (stop - cur <= Z.of_nat fuel)%Z ->
  exists n : nat,
    range_up fuel cur stop step
    = (fun i : nat => (cur + Z.of_nat i * step)%Z) <$> seq 0 n
    /\ ((Z.of_nat n - 1) * step < Z.max 0 (stop - cur) <= Z.of_nat n * step)%Z.
Proof.
  intros Hstep. revert cur. induction fuel as [|fuel IH]; intros cur Hfuel.
  - exists 0%nat. split; [done|lia].
  - simpl. destruct (Z.ltb_spec cur stop) as [Hlt|Hge].
    + destruct (IH (cur + step)%Z ltac:(lia)) as (n & -> & Hn).
      exists (S n). split.
      * cbn [seq fmap list_fmap]. f_equal; [lia|].
        rewrite <- fmap_S_seq, <- list_fmap_compose.
        apply list_fmap_ext. intros _ i _. simpl. lia.
      * rewrite Z.max_r by lia.
        rewrite Nat2Z.inj_succ.
        destruct (Z.max_spec 0 (stop - (cur + step))) as [[? Hm]|[? Hm]];
          rewrite Hm in Hn.
        -- lia.
        -- assert (n = 0)%nat as -> by (destruct n; [done|nia]). lia.
    + exists 0%nat. split; [done|lia].
Qed.

Lemma blocks_of_ok text : exists blocks, blocks_of text = Ok blocks.
Proof. eexists. apply blocks_of_unfold. Qed.

Lemma fetch_batch_ok batch_size records start w :
  (forall history args, succeeds (efetch_read env history args)) ->
  exists blocks,
    fetch_batch env webenv query_key batch_size records start w
    = (Ok (records ++ blocks),
       add_log w [Efetch (page_request webenv query_key batch_size start); Sleep 340]).
Proof.
  intros Hnet. unfold fetch_batch, efetch, page_request.
  set (args := {| db := "nucleotide"; retstart := start |}).
  specialize (Hnet (log w) args).
  destruct (efetch_read env (log w) args) as [text|] eqn:E; [|done].
  destruct (blocks_of_ok text) as [blocks Hb]. exists blocks.
  unfold mbind, io_bind, emit, lift. cbn beta iota. rewrite E, Hb.
  by rewrite add_log_add_log.
Qed.

Lemma fetch_loop_ok batch_size starts records w :
  (forall history args, succeeds (efetch_read env history args)) ->
  exists records' events,
    for_each starts records (fetch_batch env webenv query_key batch_size) w
    = (Ok records', add_log w events)
    /\ efetch_requests events = page_request webenv query_key batch_size <$> starts.
Proof.
  intros Hnet. revert records w.
  induction starts as [|start starts IH]; intros records w.
  - exists records, []. by rewrite add_log_nil.
  - destruct (fetch_batch_ok batch_size records start w Hnet) as [blocks Hb].
    destruct (IH (records ++ blocks)
                (add_log w [Efetch (page_request webenv query_key batch_size start);
                            Sleep 340]))
      as (records' & events & Hloop & Hreq).
    exists records', ([Efetch (page_request webenv query_key batch_size start);
                       Sleep 340] ++ events).
    split.
    + rewrite for_each_io_cons, (io_bind_ok _ _ _ _ _ Hb), Hloop.
      by rewrite add_log_add_log.
    + unfold efetch_requests in *. cbn [app omap list_omap]. by rewrite Hreq.
Qed.

(** C3: for a positive count and batch size, and a service that answers
    every page, [fetch_records] returns and issues exactly
    [ceil(count / batch_size)] page requests, the [i]-th at offset
    [i * batch_size]; with count 25 and batch size 10 these are three
    requests, at offsets 0, 10 and 20. *)
Theorem fetch_issues_ceil_count_over_batch_size_requests :
  (forall history args, succeeds (efetch_read env history args)) ->
  (forall count batch_size w,
     (0 < count)%Z -> (0 < batch_size)%Z ->
     exists (n : nat) records events,
       ((Z.of_nat n - 1) * batch_size < count <= Z.of_nat n * batch_size)%Z
       /\ fetch_records env webenv query_key count batch_size w
          = (Ok records, add_log w events)
       /\ efetch_requests events
          = (fun i : nat =>
               page_request webenv query_key batch_size (Z.of_nat i * batch_size))
            <$> seq 0 n)
  /\ (forall w, exists records events,
        fetch_records env webenv query_key 25 10 w = (Ok records, add_log w events)
        /\ length (efetch_requests events) = 3%nat
        /\ retstart <$> efetch_requests events = [0; 10; 20]%Z).
Proof.
  intros Hnet.
  assert (Hgen : forall count batch_size w,
    (0 < count)%Z -> (0 < batch_size)%Z ->
    exists (n : nat) records events,
      ((Z.of_nat n - 1) * batch_size < count <= Z.of_nat n * batch_size)%Z
      /\ fetch_records env webenv query_key count batch_size w
         = (Ok records, add_log w events)
      /\ efetch_requests events
         = (fun i : nat =>
              page_request webenv query_key batch_size (Z.of_nat i * batch_size))
           <$> seq 0 n).
  { intros count batch_size w Hcount Hbatch.
    destruct (range_up_spec (Z.to_nat (count - 0)) 0 count batch_size Hbatch ltac:(lia))
      as (n & Hrange & Hn).
    destruct (fetch_loop_ok batch_size
                ((fun i : nat => (0 + Z.of_nat i * batch_size)%Z) <$> seq 0 n) [] w Hnet)
      as (records & events & Hloop & Hreq).
    exists n, records, events. split; [lia|]. split.
    - unfold fetch_records, range.
      destruct (Z.eqb_spec batch_size 0) as [?|_]; [lia|].
      destruct (Z.ltb_spec 0 batch_size) as [_|?]; [|lia].
      rewrite Hrange. exact Hloop.
    - rewrite Hreq, <- list_fmap_compose. by apply list_fmap_ext. }
  split; [exact Hgen|].
  intros w. destruct (Hgen 25%Z 10%Z w) as (n & records & events & Hn & Hrun & Hreq);
    [lia..|].
  exists records, events. split; [done|].
  assert (n = 3%nat) as -> by lia. by rewrite Hreq.
Qed.

End Paging.

Lemma fetch_issues_ceil_count_over_batch_size_requests_witness :
  exists records events,
    NCBIRetriever.fetch_records sample_environment "MCID_1" "1" 25 10 initial_world
    = (Ok records, add_log initial_world events)
    /\ length (efetch_requests events) = 3%nat
    /\ retstart <$> efetch_requests events = [0; 10; 20]%Z.
Proof.
  apply (fetch_issues_ceil_count_over_batch_size_requests
           sample_environment "MCID_1" "1").
  intros history args. exact I.
Defined.

(** ** An empty search result *)

Section EmptyResult.
Import NCBIRetriever.
Context (env : environment).

Lemma search_taxid_run taxid min_len max_len w res n :
  esearch_read env (log w) (search_term taxid min_len max_len) = Ok res ->
  Str.int (Count res) = Ok n ->
  search_taxid env taxid min_len max_len w
  = (Ok (if (0 <? n)%Z then Some res else None),
     add_log w [Esearch "nucleotide" (search_term taxid min_len max_len) "y"]).
Proof.
  intros Hres Hn. unfold search_taxid, esearch, mbind, io_bind, emit, lift.
  cbn beta iota. by rewrite Hres, Hn.
Qed.

(** C5: when the search reports zero matches, [search_taxid] returns
    [None] without raising, and [main] stops with the message
    "No records found" right after the search: nothing is fetched, no frame
    is built and neither output file is written. *)
Theorem zero_matches_halt_before_fetch ans w min_len max_len res :
  int_or_none (ans_min_len ans) = Ok min_len ->
  int_or_none (ans_max_len ans) = Ok max_len ->
  (forall history,
     esearch_read env history (search_term (ans_taxid ans) min_len max_len) = Ok res) ->
  Str.int (Count res) = Ok 0%Z ->
  let term := search_term (ans_taxid ans) min_len max_len in
  (forall w0,
     search_taxid env (ans_taxid ans) min_len max_len w0
     = (Ok None, add_log w0 [Esearch "nucleotide" term "y"]))
  /\ exists w',
       main env ans w = (Raise (SystemExit "No records found"), w')
       /\ log w' = log w ++ events_until_search (ans_taxid ans) term
       /\ forallb is_fetch_or_output (events_until_search (ans_taxid ans) term) = false
       /\ Forall (fun e => is_fetch_or_output e = false)
                 (events_until_search (ans_taxid ans) term)
       /\ frames w' = frames w.
Proof.
  intros Hmin Hmax Hsearch Hcount term.
  assert (Hrun : forall w0,
    search_taxid env (ans_taxid ans) min_len max_len w0
    = (Ok None, add_log w0 [Esearch "nucleotide" term "y"])).
  { intros w0. by rewrite (search_taxid_run _ _ _ _ res 0%Z). }
  split; [exact Hrun|].
  eexists. split; [|split; [|split; [|split]]].
  - unfold main.
    do 8 (erewrite io_bind_ok by reflexivity).
    erewrite io_bind_ok by (unfold lift; rewrite Hmin; reflexivity).
    erewrite io_bind_ok by (unfold lift; rewrite Hmax; reflexivity).
    do 2 (erewrite io_bind_ok by reflexivity).
    erewrite io_bind_ok by apply Hrun.
    reflexivity.
  - simpl. rewrite <- !app_assoc. reflexivity.
  - reflexivity.
  - repeat constructor.
  - reflexivity.
Qed.

End EmptyResult.

Lemma zero_matches_halt_before_fetch_witness :
  exists w',
    main empty_environment sample_answers initial_world
    = (Raise (SystemExit "No records found"), w')
    /\ log w' = events_until_search "9606" "txid9606[Organism] AND 100:[SLEN]"
    /\ frames w' = ∅.
Proof.
  destruct (zero_matches_halt_before_fetch empty_environment sample_answers
              initial_world (Some 100%Z) None
              {| Count := "0"; WebEnv := "MCID_0"; QueryKey := "1" |})
    as (_ & w' & Hmain & Hlog & _ & _ & Hframes); try reflexivity.
  exists w'. split; [exact Hmain|]. split; [exact Hlog|exact Hframes].
Defined.

(** ** The report table *)

Section Report.
Import NCBIRetriever.
Context (env : environment).

Lemma new_frame_run f w :
  exists df,
    new_frame f w = (Ok df, set_frame w df f) /\ frames w !! df = None.
Proof.
  exists (fresh (dom (frames w))). split; [reflexivity|].
  apply not_elem_of_dom, is_fresh.
Qed.

Lemma read_frame_run df w f :
  frames w !! df = Some f -> read_frame df w = (Ok f, w).
Proof. intros H. unfold read_frame. by rewrite H. Qed.

Lemma set_frame_lookup w df f : frames (set_frame w df f) !! df = Some f.
Proof. apply lookup_insert_eq. Qed.

Lemma set_frame_fresh w df f r g :
  frames w !! df = None -> frames w !! r = Some g ->
  frames (set_frame w df f) !! r = Some g.
Proof.
  intros Hfresh Hr. unfold set_frame. simpl. rewrite lookup_insert_ne; [done|].
  intros <-. by rewrite Hfresh in Hr.
Qed.

(** A call is logged, and either returns or raises. *)
Lemma call_cases c w :
  (library_raises env (log w) c = None
   /\ call env c w = (Ok tt, add_log w [Library c]))
  \/ (exists e, library_raises env (log w) c = Some e
                /\ call env c w = (Raise e, add_log w [Library c])).
Proof.
  unfold call. destruct (library_raises env (log w) c) as [e|]; [right|left]; eauto.
Qed.

(** A sequence of calls logs the calls it reached, in order. *)
Lemma calls_cases cs w :
  exists outcome done,
    calls env cs w = (outcome, add_log w (Library <$> done))
    /\ done `prefix_of` cs
    /\ (outcome = Ok tt -> done = cs).
Proof.
  revert w. induction cs as [|c cs IH]; intros w.
  - exists (Ok tt), []. split; [|done].
    change (calls env [] w) with (Ok tt, w). by rewrite add_log_nil.
  - destruct (call_cases c w) as [[_ Hc]|(e & _ & Hc)].
    + destruct (IH (add_log w [Library c])) as (outcome & done & Hrun & Hpre & Hall).
      exists outcome, (c :: done). split; [|split].
      * cbn [calls]. rewrite (io_bind_ok _ _ _ _ _ Hc), Hrun.
        by rewrite add_log_add_log.
      * by apply prefix_cons.
      * intros H. by rewrite (Hall H).
    + exists (Raise e), [c]. split; [|split; [|done]].
      * cbn [calls]. by rewrite (io_bind_raise _ _ _ _ _ Hc).
      * apply prefix_cons, prefix_nil.
Qed.

Lemma data_frame_cases data columns w :
  (exists df,
     Pandas.data_frame env data columns w
     = (Ok df, set_frame (add_log w [Library (NewDataFrame data columns)]) df
                 (DataFrame data columns))
     /\ frames w !! df = None)
  \/ (exists e,
        Pandas.data_frame env data columns w
        = (Raise e, add_log w [Library (NewDataFrame data columns)])).
Proof.
  unfold Pandas.data_frame.
  destruct (call_cases (NewDataFrame data columns) w) as [[_ Hc]|(e & _ & Hc)].
  - left.
    destruct (new_frame_run (DataFrame data columns)
                (add_log w [Library (NewDataFrame data columns)])) as (df & Hnew & Hfresh).
    exists df. split; [|done]. by rewrite (io_bind_ok _ _ _ _ _ Hc).
  - right. exists e. by rewrite (io_bind_raise _ _ _ _ _ Hc).
Qed.

Lemma to_csv_cases df f filename index w :
  frames w !! df = Some f ->
  exists outcome,
    Pandas.to_csv env df filename index w
    = (outcome, add_log w [Library (ToCsv f filename index)]).
Proof.
  intros Hdf. unfold Pandas.to_csv.
  rewrite (io_bind_ok _ _ _ _ _ (read_frame_run _ _ _ Hdf)).
  destruct (call_cases (ToCsv f filename index) w) as [[_ ->]|(e & _ & ->)]; eauto.
Qed.

(** Sorting without [inplace] leaves every frame of the store as it is. *)
Lemma sort_values_cases df f label ascending w :
  frames w !! df = Some f ->
  (exists df',
     Pandas.sort_values env df label ascending false w
     = (Ok (Some df'),
        set_frame (add_log w [Library (SortValues f label ascending false)]) df'
          (SortedBy f label ascending))
     /\ frames w !! df' = None)
  \/ (exists e,
        Pandas.sort_values env df label ascending false w
        = (Raise e, add_log w [Library (SortValues f label ascending false)])).
Proof.
  intros Hdf. unfold Pandas.sort_values.
  rewrite (io_bind_ok _ _ _ _ _ (read_frame_run _ _ _ Hdf)).
  destruct (call_cases (SortValues f label ascending false) w) as [[_ Hc]|(e & _ & Hc)].
  - left.
    destruct (new_frame_run (SortedBy f label ascending)
                (add_log w [Library (SortValues f label ascending false)]))
      as (df' & Hnew & Hfresh).
    exists df'. split; [|done].
    rewrite (io_bind_ok _ _ _ _ _ Hc). cbn iota.
    by rewrite (io_bind_ok _ _ _ _ _ Hnew).
  - right. exists e. by rewrite (io_bind_raise _ _ _ _ _ Hc).
Qed.

(** Sorting in place does change the frame under the reference. *)
Lemma sort_values_inplace_changes df f label ascending w :
  frames w !! df = Some f ->
  library_raises env (log w) (SortValues f label ascending true) = None ->
  exists w',
    Pandas.sort_values env df label ascending true w = (Ok None, w')
    /\ frames w' !! df = Some (SortedBy f label ascending).
Proof.
  intros Hdf Hok. eexists. split.
  { unfold Pandas.sort_values.
    rewrite (io_bind_ok _ _ _ _ _ (read_frame_run _ _ _ Hdf)).
    destruct (call_cases (SortValues f label ascending true) w)
      as [[_ Hc]|(e & He & _)]; [|congruence].
    rewrite (io_bind_ok _ _ _ _ _ Hc). reflexivity. }
  apply set_frame_lookup.
Qed.

Lemma generate_csv_cases data filename w :
  exists outcome w1 done,
    generate_csv env data filename w = (outcome, w1)
    /\ log w1 = log w ++ (Library <$> done)
    /\ done `prefix_of` csv_calls data filename
    /\ (forall r f, frames w !! r = Some f -> frames w1 !! r = Some f)
    /\ entrez_email w1 = entrez_email w
    /\ entrez_api_key w1 = entrez_api_key w
    /\ entrez_tool w1 = entrez_tool w
    /\ (forall df, outcome = Ok df ->
          done = csv_calls data filename
          /\ frames w1 !! df = Some (report_table data)).
Proof.
  unfold generate_csv.
  destruct (data_frame_cases data report_columns w) as [(df & Hnew & Hfresh)|(e & Hnew)].
  - set (w0 := set_frame (add_log w [Library (NewDataFrame data report_columns)]) df
                 (DataFrame data report_columns)) in *.
    assert (Hdf : frames w0 !! df = Some (report_table data)) by apply set_frame_lookup.
    destruct (to_csv_cases df (report_table data) filename false w0 Hdf) as [outcome Hcsv].
    destruct outcome as [[]|e].
    + exists (Ok df). eexists. exists (csv_calls data filename). split.
      { change ["Accession"; "Length"; "Description"] with report_columns.
        rewrite (io_bind_ok _ _ _ _ _ Hnew), (io_bind_ok _ _ _ _ _ Hcsv). reflexivity. }
      split; [simpl; by rewrite <- app_assoc|]. split; [done|].
      split; [intros r f Hr; by apply (set_frame_fresh _ _ _ _ _ Hfresh)|].
      do 3 (split; [done|]). intros df' [= <-]. split; [done|exact Hdf].
    + exists (Raise e). eexists. exists (csv_calls data filename). split.
      { change ["Accession"; "Length"; "Description"] with report_columns.
        rewrite (io_bind_ok _ _ _ _ _ Hnew), (io_bind_raise _ _ _ _ _ Hcsv). reflexivity. }
      split; [simpl; by rewrite <- app_assoc|]. split; [done|].
      split; [intros r f Hr; by apply (set_frame_fresh _ _ _ _ _ Hfresh)|].
      by do 3 (split; [done|]).
  - exists (Raise e). eexists. exists [NewDataFrame data report_columns]. split.
    { change ["Accession"; "Length"; "Description"] with report_columns.
      rewrite (io_bind_raise _ _ _ _ _ Hnew). reflexivity. }
    split; [done|]. split; [apply prefix_cons, prefix_nil|].
    split; [done|]. by do 3 (split; [done|]).
Qed.

Lemma plot_lengths_cases df f filename w :
  frames w !! df = Some f ->
  exists outcome w2 done,
    plot_lengths env df filename w = (outcome, w2)
    /\ frames w2 !! df = Some f
    /\ (forall r g, frames w !! r = Some g -> frames w2 !! r = Some g)
    /\ log w2 = log w ++ (Library <$> done)
    /\ done `prefix_of` plot_calls f filename
    /\ entrez_email w2 = entrez_email w
    /\ entrez_api_key w2 = entrez_api_key w
    /\ entrez_tool w2 = entrez_tool w
    /\ (outcome = Ok tt -> done = plot_calls f filename).
Proof.
  intros Hdf. unfold plot_lengths.
  destruct (sort_values_cases df f "Length" false w Hdf)
    as [(df' & Hsort & Hfresh)|(e & Hsort)].
  - set (w0 := set_frame (add_log w [Library (SortValues f "Length" false false)]) df'
                 (SortedBy f "Length" false)) in *.
    assert (Hdf' : frames w0 !! df' = Some (SortedBy f "Length" false))
      by apply set_frame_lookup.
    assert (Hkeep : forall r g, frames w !! r = Some g -> frames w0 !! r = Some g).
    { intros r g Hr. by apply (set_frame_fresh _ _ _ _ _ Hfresh). }
    destruct (calls_cases (tail (plot_calls f filename)) w0)
      as (outcome & done & Hcalls & Hpre & Hall).
    exists outcome. eexists. exists (SortValues f "Length" false false :: done). split.
    { rewrite (io_bind_ok _ _ _ _ _ Hsort). cbn iota.
      rewrite (io_bind_ok _ _ _ _ _ (read_frame_run _ _ _ Hdf')). exact Hcalls. }
    split; [by apply Hkeep|]. split; [exact Hkeep|].
    split; [simpl; by rewrite <- app_assoc|].
    split; [by apply prefix_cons|]. do 3 (split; [done|]).
    intros H. by rewrite (Hall H).
  - exists (Raise e). eexists. exists [SortValues f "Length" false false]. split.
    { rewrite (io_bind_raise _ _ _ _ _ Hsort). reflexivity. }
    split; [done|]. split; [done|]. split; [done|].
    split; [apply prefix_cons, prefix_nil|]. by do 3 (split; [done|]).
Qed.


End Report.


(** * Further properties of the code *)

(** ** The loop of [fetch_records] *)

Section FetchLoop.
Import NCBIRetriever.
Context (env : environment).
Context (webenv query_key : string).

Lemma blocks_of_kept text : blocks_of text = Ok (kept_blocks text).
Proof. reflexivity. Qed.

Lemma fetch_batch_answered batch_size records start w text :
  efetch_read env (log w) (page_request webenv query_key batch_size start) = Ok text ->
  fetch_batch env webenv query_key batch_size records start w
  = (Ok (records ++ kept_blocks text),
     add_log w (page_events webenv query_key batch_size start)).
Proof.
  intros E. unfold fetch_batch, efetch, page_events, page_request in *.
  unfold mbind, io_bind, emit, lift. cbn beta iota. rewrite E, blocks_of_kept.
  by rewrite add_log_add_log.
Qed.

Lemma fetch_batch_failed batch_size records start w e :
  efetch_read env (log w) (page_request webenv query_key batch_size start) = Raise e ->
  fetch_batch env webenv query_key batch_size records start w
  = (Raise e, add_log w [Efetch (page_request webenv query_key batch_size start)]).
Proof.
  intros E. unfold fetch_batch, efetch, page_request in *.
  unfold mbind, io_bind, emit, lift. cbn beta iota. by rewrite E.
Qed.

(** The loop on any service: some pages are answered, in order, and either
    all of them are, or the next one fails and ends the loop. *)
Lemma fetch_loop_any batch_size starts records w :
  exists outcome (k : nat) tail,
    for_each starts records (fetch_batch env webenv query_key batch_size) w
    = (outcome,
       add_log w ((take k starts ≫= page_events webenv query_key batch_size) ++ tail))
    /\ match outcome with
       | Ok _ => k = length starts /\ tail = []
       | Raise e =>
           exists start,
             starts !! k = Some start
             /\ tail = [Efetch (page_request webenv query_key batch_size start)]
             /\ efetch_read env
                  (log w ++ (take k starts ≫= page_events webenv query_key batch_size))
                  (page_request webenv query_key batch_size start) = Raise e
       end.
Proof.
  revert records w. induction starts as [|start starts IH]; intros records w.
  - exists (Ok records), 0%nat, []. split; [|done].
    change (for_each [] records (fetch_batch env webenv query_key batch_size) w)
      with (Ok records, w). by rewrite add_log_nil.
  - destruct (efetch_read env (log w) (page_request webenv query_key batch_size start))
      as [text|e] eqn:E.
    + destruct (IH (records ++ kept_blocks text)
                  (add_log w (page_events webenv query_key batch_size start)))
        as (outcome & k & tail & Hrun & Hout).
      exists outcome, (S k), tail. split.
      * rewrite for_each_io_cons,
          (io_bind_ok _ _ _ _ _ (fetch_batch_answered _ records _ _ _ E)), Hrun.
        rewrite add_log_add_log. cbn [take]. rewrite bind_cons.
        by rewrite <- !app_assoc.
      * destruct outcome as [rs|e]; [by destruct Hout as [-> ->]|].
        destruct Hout as (st & Hst & -> & Hfail). exists st.
        split; [done|]. split; [done|].
        cbn [take]. rewrite bind_cons, app_assoc. exact Hfail.
    + exists (Raise e), 0%nat,
        [Efetch (page_request webenv query_key batch_size start)]. split.
      * rewrite for_each_io_cons.
        by rewrite (io_bind_raise _ _ _ _ _ (fetch_batch_failed _ records _ _ _ E)).
      * exists start. split; [done|]. split; [done|].
        cbn [take mbind list_bind]. by rewrite app_nil_r.
Qed.

End FetchLoop.

Section FetchProperties.
Import NCBIRetriever.
Context (env : environment).
Context (webenv query_key : string).

Lemma range_positive_step count batch_size :
  (0 < batch_size)%Z ->
  range 0 count batch_size
  = Ok (range_up (Z.to_nat (count - 0)) 0 count batch_size).
Proof.
  intros H. unfold range.
  destruct (Z.eqb_spec batch_size 0) as [?|_]; [lia|].
  by destruct (Z.ltb_spec 0 batch_size) as [_|?]; [|lia].
Qed.

Lemma fetch_records_positive_step count batch_size w :
  (0 < batch_size)%Z ->
  fetch_records env webenv query_key count batch_size w
  = for_each (range_up (Z.to_nat (count - 0)) 0 count batch_size) []
      (fetch_batch env webenv query_key batch_size) w.
Proof.
  intros H. unfold fetch_records. by rewrite (range_positive_step _ _ H).
Qed.

Lemma fetch_loop_answered batch_size (respond : efetch_args -> string) starts records w :
  (forall history args, efetch_read env history args = Ok (respond args)) ->
  for_each starts records (fetch_batch env webenv query_key batch_size) w
  = (Ok (records ++
         (starts ≫= fun start =>
            kept_blocks (respond (page_request webenv query_key batch_size start)))),
     add_log w (starts ≫= page_events webenv query_key batch_size)).
Proof.
  intros Hnet. revert records w.
  induction starts as [|start starts IH]; intros records w.
  - change (for_each [] records (fetch_batch env webenv query_key batch_size) w)
      with (Ok records, w).
    cbn [mbind list_bind]. by rewrite app_nil_r, add_log_nil.
  - rewrite for_each_io_cons,
      (io_bind_ok _ _ _ _ _ (fetch_batch_answered env _ _ _ records _ _ _ (Hnet _ _))).
    rewrite IH, add_log_add_log, !bind_cons. by rewrite <- app_assoc.
Qed.

(** X1: degenerate arguments. A batch size of zero raises [ValueError]
    before anything is requested; a count that is not positive (with a
    positive batch size), or a negative batch size with a count that is not
    negative, returns no record and requests nothing. *)
Theorem fetch_records_without_pages count batch_size w :
  (batch_size = 0%Z ->
   fetch_records env webenv query_key count batch_size w = (Raise ValueError, w))
  /\ ((0 < batch_size)%Z -> (count <= 0)%Z ->
      fetch_records env webenv query_key count batch_size w = (Ok [], w))
  /\ ((batch_size < 0)%Z -> (0 <= count)%Z ->
      fetch_records env webenv query_key count batch_size w = (Ok [], w)).
Proof.
  split; [|split].
  - by intros ->.
  - intros Hb Hc. rewrite (fetch_records_positive_step _ _ _ Hb).
    by replace (Z.to_nat (count - 0)) with 0%nat by lia.
  - intros Hb Hc. unfold fetch_records, range.
    destruct (Z.eqb_spec batch_size 0) as [?|_]; [lia|].
    destruct (Z.ltb_spec 0 batch_size) as [?|_]; [lia|].
    by replace (Z.to_nat (0 - count)) with 0%nat by lia.
Qed.

(** X2: on a service that answers every page, the log of [fetch_records]
    is, for each offset of the range in turn, the request followed by the
    sleep of 340 ms: the sleep follows every page, the last one included,
    and nothing else is logged. *)
Theorem every_page_is_followed_by_a_sleep count batch_size w :
  (0 < batch_size)%Z ->
  (forall history args, succeeds (efetch_read env history args)) ->
  exists starts records,
    range 0 count batch_size = Ok starts
    /\ fetch_records env webenv query_key count batch_size w
       = (Ok records, add_log w (starts ≫= page_events webenv query_key batch_size)).
Proof.
  intros Hb Hnet. eexists. 
  destruct (fetch_loop_any env webenv query_key batch_size
              (range_up (Z.to_nat (count - 0)) 0 count batch_size) [] w)
    as (outcome & k & tail & Hrun & Hout).
  destruct outcome as [records|e].
  - destruct Hout as [-> ->]. exists records. split; [by apply range_positive_step|].
    rewrite (fetch_records_positive_step _ _ _ Hb), Hrun.
    by rewrite firstn_all, app_nil_r.
  - destruct Hout as (start & _ & _ & Hfail).
    specialize (Hnet (log w ++
      (take k (range_up (Z.to_nat (count - 0)) 0 count batch_size)
       ≫= page_events webenv query_key batch_size))
      (page_request webenv query_key batch_size start)).
    by rewrite Hfail in Hnet.
Qed.

(** X3: on any service, [fetch_records] requests the pages in the order of
    the range, each answered page followed by its sleep, and either returns
    after the last page or stops at the first page the service fails on:
    that request is then the last event (no sleep, no retry, no later page)
    and the exception raised is the one of the service. *)
Theorem failed_page_ends_the_fetch count batch_size w :
  (0 < batch_size)%Z ->
  exists starts outcome (k : nat) tail,
    range 0 count batch_size = Ok starts
    /\ fetch_records env webenv query_key count batch_size w
       = (outcome,
          add_log w ((take k starts ≫= page_events webenv query_key batch_size) ++ tail))
    /\ match outcome with
       | Ok _ => k = length starts /\ tail = []
       | Raise e =>
           exists start,
             starts !! k = Some start
             /\ tail = [Efetch (page_request webenv query_key batch_size start)]
             /\ efetch_read env
                  (log w ++ (take k starts ≫= page_events webenv query_key batch_size))
                  (page_request webenv query_key batch_size start) = Raise e
       end.
Proof.
  intros Hb.
  destruct (fetch_loop_any env webenv query_key batch_size
              (range_up (Z.to_nat (count - 0)) 0 count batch_size) [] w)
    as (outcome & k & tail & Hrun & Hout).
  exists (range_up (Z.to_nat (count - 0)) 0 count batch_size), outcome, k, tail.
  split; [by apply range_positive_step|]. split; [|done].
  by rewrite (fetch_records_positive_step _ _ _ Hb).
Qed.

(** X4: when the service answers every request by a function of the
    request, the records returned are the blocks of the responses, page
    after page in the order of the offsets, each response's blocks in their
    own order. *)
Theorem fetched_records_are_the_blocks_in_page_order
    (respond : efetch_args -> string) count batch_size w :
  (0 < batch_size)%Z ->
  (forall history args, efetch_read env history args = Ok (respond args)) ->
  exists starts,
    range 0 count batch_size = Ok starts
    /\ fetch_records env webenv query_key count batch_size w
       = (Ok (starts ≫= fun start =>
                kept_blocks (respond (page_request webenv query_key batch_size start))),
          add_log w (starts ≫= page_events webenv query_key batch_size)).
Proof.
  intros Hb Hnet. eexists. split; [by apply range_positive_step|].
  rewrite (fetch_records_positive_step _ _ _ Hb).
  by rewrite (fetch_loop_answered batch_size respond _ _ _ Hnet).
Qed.

End FetchProperties.

Lemma fetch_records_without_pages_witness :
  NCBIRetriever.fetch_records sample_environment "MCID_1" "1" 25 0 initial_world
  = (Raise ValueError, initial_world)
  /\ NCBIRetriever.fetch_records sample_environment "MCID_1" "1" 0 10 initial_world
     = (Ok [], initial_world)
  /\ NCBIRetriever.fetch_records sample_environment "MCID_1" "1" 25 (-10) initial_world
     = (Ok [], initial_world).
Proof.
  destruct (fetch_records_without_pages sample_environment "MCID_1" "1" 25 0 initial_world)
    as (H1 & _ & _).
  destruct (fetch_records_without_pages sample_environment "MCID_1" "1" 0 10 initial_world)
    as (_ & H2 & _).
  destruct (fetch_records_without_pages sample_environment "MCID_1" "1" 25 (-10)
              initial_world) as (_ & _ & H3).
  split; [apply H1; reflexivity|]. split; [apply H2; lia|apply H3; lia].
Defined.

Lemma every_page_is_followed_by_a_sleep_witness :
  exists starts records,
    range 0 25 10 = Ok starts
    /\ NCBIRetriever.fetch_records sample_environment "MCID_1" "1" 25 10 initial_world
       = (Ok records, add_log initial_world (starts ≫= page_events "MCID_1" "1" 10)).
Proof.
  apply (every_page_is_followed_by_a_sleep sample_environment "MCID_1" "1" 25 10
           initial_world); [lia|].
  intros history args. exact I.
Defined.

Lemma failed_page_ends_the_fetch_witness :
  exists starts outcome (k : nat) tail,
    range 0 25 10 = Ok starts
    /\ NCBIRetriever.fetch_records failing_environment "MCID_1" "1" 25 10 initial_world
       = (outcome,
          add_log initial_world ((take k starts ≫= page_events "MCID_1" "1" 10) ++ tail))
    /\ match outcome with
       | Ok _ => k = length starts /\ tail = []
       | Raise e =>
           exists start,
             starts !! k = Some start
             /\ tail = [Efetch (page_request "MCID_1" "1" 10 start)]
             /\ efetch_read failing_environment
                  (log initial_world ++ (take k starts ≫= page_events "MCID_1" "1" 10))
                  (page_request "MCID_1" "1" 10 start) = Raise e
       end.
Proof.
  apply (failed_page_ends_the_fetch failing_environment "MCID_1" "1" 25 10 initial_world).
  lia.
Defined.

Lemma fetched_records_are_the_blocks_in_page_order_witness :
  exists starts,
    range 0 25 10 = Ok starts
    /\ NCBIRetriever.fetch_records
         (answering "25" (fun args => "ACCESSION   R" +:+ Str.of_Z (retstart args)
                                        +:+ LF +:+ record_separator))
         "MCID_1" "1" 25 10 initial_world
       = (Ok (starts ≫= fun start =>
                kept_blocks ("ACCESSION   R" +:+ Str.of_Z start +:+ LF +:+ record_separator)),
          add_log initial_world (starts ≫= page_events "MCID_1" "1" 10)).
Proof.
  apply (fetched_records_are_the_blocks_in_page_order
           (answering "25" (fun args => "ACCESSION   R" +:+ Str.of_Z (retstart args)
                                          +:+ LF +:+ record_separator))
           "MCID_1" "1"
           (fun args => "ACCESSION   R" +:+ Str.of_Z (retstart args)
                          +:+ LF +:+ record_separator)
           25 10 initial_world); [lia|].
  intros history args. reflexivity.
Defined.

(** ** Lines, tokens and descriptions *)

Section TextProperties.
Import NCBIRetriever.
Implicit Types (s t cur line record : string) (c : ascii).

Lemma contains_char_app c s t :
  contains_char c (s +:+ t) = contains_char c s || contains_char c t.
Proof.
  induction s as [|a s IH]; [done|]. rewrite str_app_cons. simpl.
  by case_decide.
Qed.

Lemma contains_char_drop c n s :
  contains_char c s = false -> contains_char c (Str.drop n s) = false.
Proof.
  revert s. induction n as [|n IH]; intros s; [done|].
  destruct s as [|a s]; [done|]. simpl. case_decide; [done|]. apply IH.
Qed.

Lemma strip_prefix_char c s :
  Str.strip_prefix (Str.of_char c) s
  = match s with
    | "" => None
    | String a r => if decide (a = c) then Some r else None
    end.
Proof.
  unfold Str.strip_prefix. destruct s as [|a r]; [done|]. simpl. by case_decide.
Qed.

(** No segment of a split on one character holds that character. *)
Lemma split_go_char_clean c fuel cur s :
  (String.length s < fuel)%nat ->
  contains_char c cur = false ->
  Forall (fun seg => contains_char c seg = false)
         (Str.split_go fuel (Str.of_char c) cur s).
Proof.
  revert cur s. induction fuel as [|fuel IH]; intros cur s Hlen Hcur; [lia|].
  cbn [Str.split_go]. rewrite strip_prefix_char.
  destruct s as [|a r]; [by constructor|].
  simpl in Hlen. case_decide.
  - constructor; [done|]. apply IH; [lia|done].
  - apply IH; [lia|]. rewrite contains_char_app, Hcur. simpl. by case_decide.
Qed.

(** A text without the character is its own single segment. *)
Lemma split_go_char_absent c fuel cur s :
  (String.length s < fuel)%nat ->
  contains_char c s = false ->
  Str.split_go fuel (Str.of_char c) cur s = [cur +:+ s].
Proof.
  revert cur s. induction fuel as [|fuel IH]; intros cur s Hlen Hs; [lia|].
  cbn [Str.split_go]. rewrite strip_prefix_char.
  destruct s as [|a r]; [by rewrite str_app_nil_r|].
  simpl in Hlen, Hs. case_decide; [done|].
  rewrite IH by (lia || done). by rewrite str_app_assoc.
Qed.

Lemma replace_absent c s new :
  contains_char c s = false -> Str.replace s (Str.of_char c) new = s.
Proof.
  intros H. unfold Str.replace. cbn [Str.is_empty Str.of_char].
  change (String c "") with (Str.of_char c).
  by rewrite split_go_char_absent by (lia || done).
Qed.

(** X5: the lines of a record, joined by line feeds, are the record; no
    line holds a line feed, so on every line of a record the replacement of
    line feeds in the DEFINITION branch changes nothing: the description is
    the line without its first twelve characters, stripped. *)
Theorem lines_rebuild_the_record_and_hold_no_line_feed record :
  Str.join LF (lines_of record) = record
  /\ Forall (fun line =>
               contains_char "010" line = false
               /\ description_of line = Str.strip (Str.drop 12 line))
            (lines_of record).
Proof.
  split.
  - unfold lines_of. by rewrite join_split_go by (done || lia).
  - assert (H : Forall (fun line => contains_char "010" line = false)
                       (lines_of record)).
    { apply (split_go_char_clean "010"); [lia|done]. }
    eapply Forall_impl; [exact H|]. intros line Hline. split; [done|].
    unfold description_of.
    by rewrite (replace_absent "010" _ " ") by by apply contains_char_drop.
Qed.

Lemma has_space_snoc s c :
  has_space (s +:+ Str.of_char c) = has_space s || Str.isspace c.
Proof.
  induction s as [|a s IH]; [simpl; by rewrite orb_false_r|].
  rewrite str_app_cons. simpl. by rewrite IH, orb_assoc.
Qed.

(** A token of [split()] holds no white space. *)
Lemma split_ws_go_clean cur s t :
  has_space cur = false -> t ∈ Str.split_ws_go cur s -> has_space t = false.
Proof.
  revert cur. induction s as [|c s IH]; intros cur Hcur; simpl.
  - unfold Str.flush. destruct (Str.is_empty cur); [by intros ?%elem_of_nil|].
    by intros ->%list_elem_of_singleton.
  - destruct (Str.isspace c) eqn:Hc.
    + rewrite elem_of_app. intros [H|H]; [|exact (IH "" eq_refl H)].
      unfold Str.flush in H. destruct (Str.is_empty cur); [by apply elem_of_nil in H|].
      by apply list_elem_of_singleton in H as ->.
    + apply IH. by rewrite has_space_snoc, Hcur, Hc.
Qed.

Lemma lstrip_clean s :
  match Str.lstrip s with "" => True | String c _ => Str.isspace c = false end.
Proof.
  induction s as [|c s IH]; [done|]. simpl.
  destruct (Str.isspace c) eqn:Hc; [done|]. exact Hc.
Qed.

Lemma lstrip_fixed s :
  match s with "" => True | String c _ => Str.isspace c = false end ->
  Str.lstrip s = s.
Proof. destruct s as [|c s]; [done|]. simpl. by intros ->. Qed.

Lemma rstrip_keeps_head s :
  match s with "" => True | String c _ => Str.isspace c = false end ->
  match Str.rstrip s with "" => True | String c _ => Str.isspace c = false end.
Proof.
  destruct s as [|c s]; [done|]. simpl. intros Hc. by rewrite Hc, andb_false_r.
Qed.

Lemma rstrip_rstrip s : Str.rstrip (Str.rstrip s) = Str.rstrip s.
Proof.
  induction s as [|c s IH]; [done|]. simpl.
  destruct (Str.is_empty (Str.rstrip s) && Str.isspace c) eqn:E; [done|].
  simpl. by rewrite IH, E.
Qed.

Lemma strip_strip s : Str.strip (Str.strip s) = Str.strip s.
Proof.
  unfold Str.strip.
  rewrite (lstrip_fixed (Str.rstrip (Str.lstrip s)))
    by apply rstrip_keeps_head, lstrip_clean.
  apply rstrip_rstrip.
Qed.

Lemma length_omap_le {A B} (f : A -> option B) (xs : list A) :
  (length (omap f xs) <= length xs)%nat.
Proof.
  induction xs as [|x xs IH]; [done|]. cbn [omap list_omap].
  destruct (f x); simpl; lia.
Qed.

Lemma row_of_clean record r :
  row_of record = Some r ->
  Accession r <> ""
  /\ has_space (Accession r) = false
  /\ (forall d, Description r = Some d -> Str.strip d = d).
Proof.
  unfold row_of.
  destruct (last_with "ACCESSION" (lines_of record)) as [l|]; simpl; [|done].
  destruct (accession_of l) as [a|] eqn:Ha; simpl; [|done].
  intros [= <-]. simpl. unfold accession_of in Ha.
  apply list_elem_of_lookup_2 in Ha. split; [|split].
  - exact (split_ws_go_nonempty _ _ _ Ha).
  - exact (split_ws_go_clean "" _ _ eq_refl Ha).
  - destruct (last_with "DEFINITION" (lines_of record)) as [l'|]; simpl; [|done].
    intros d [= <-]. unfold description_of. apply strip_strip.
Qed.

(** X6: whenever extraction returns, the rows are those of the records
    that have an accession, in the order of the records, at most one per
    record; every accession is a non-empty token without white space and
    every description is stripped of white space at both ends. *)
Theorem extracted_rows_are_clean records data :
  parse_records records = Ok data ->
  data = omap row_of records
  /\ (length data <= length records)%nat
  /\ Forall (fun r =>
               Accession r <> ""
               /\ has_space (Accession r) = false
               /\ (forall d, Description r = Some d -> Str.strip d = d))
            data.
Proof.
  intros H. unfold parse_records in H.
  destruct (forallb record_ok records) eqn:Hok.
  - rewrite (parse_from_ok _ _ Hok) in H. injection H as <-. simpl.
    split; [done|]. split; [apply length_omap_le|].
    apply Forall_forall. intros r (record & _ & Hr)%list_elem_of_omap.
    by eapply row_of_clean.
  - by destruct (parse_from_bad records [] Hok) as [H'|H']; rewrite H' in H.
Qed.

Lemma for_each_app {A S} (xs ys : list A) (s : S) (body : S -> A -> result S) :
  for_each (xs ++ ys) s body = (s' ← for_each xs s body; for_each ys s' body).
Proof.
  revert s. induction xs as [|x xs IH]; intros s; [done|].
  rewrite <- app_comm_cons, !for_each_cons.
  destruct (body s x) as [s'|e]; [apply IH|done].
Qed.

Lemma append_row_shift data v : append_row data v = data ++ append_row [] v.
Proof.
  unfold append_row. destruct (accession v) as [a|]; [|by rewrite app_nil_r].
  destruct (truthy_str a); [done|by rewrite app_nil_r].
Qed.

Lemma parse_from_shift records data :
  for_each records data parse_record
  = (rows ← for_each records [] parse_record; Ok (data ++ rows)).
Proof.
  revert data. induction records as [|r records IH]; intros data.
  - change (for_each [] data parse_record) with (Ok data).
    change (for_each [] [] parse_record) with (Ok (@nil row)).
    simpl. by rewrite app_nil_r.
  - rewrite !for_each_cons, !parse_record_unfold.
    destruct (scan_lines (lines_of r)) as [v|e]; [|done].
    rewrite IH, (IH (append_row [] v)), (append_row_shift data v).
    destruct (for_each records [] parse_record) as [rows|e]; [|done].
    simpl. by rewrite app_assoc.
Qed.

(** X7: extraction may be done batch by batch. Extracting from two lists
    of records one after the other and concatenating the rows is extracting
    from the concatenated list, failures included: the exception of the first
    list, if any, else that of the second. *)
Theorem extraction_distributes_over_concatenation (xs ys : list string) :
  parse_records (xs ++ ys)
  = (rows_xs ← parse_records xs; rows_ys ← parse_records ys; Ok (rows_xs ++ rows_ys)).
Proof.
  unfold parse_records. rewrite for_each_app.
  destruct (for_each xs [] parse_record) as [rows|e]; [|done].
  simpl. apply parse_from_shift.
Qed.

Lemma scan_line_other v line : is_field_line line = false -> scan_line v line = Ok v.
Proof.
  unfold is_field_line, scan_line.
  intros [[-> ->]%orb_false_iff ->]%orb_false_iff. done.
Qed.

(** X8: lines that begin with none of the three markers are ignored:
    scanning a list of lines gives what scanning its ACCESSION, DEFINITION
    and LOCUS lines alone gives, the same fields or the same exception. *)
Theorem other_lines_are_ignored (lines : list string) :
  scan_lines lines = scan_lines (List.filter is_field_line lines).
Proof.
  unfold scan_lines. generalize no_fields.
  induction lines as [|line lines IH]; intros v; [done|].
  cbn [List.filter]. destruct (is_field_line line) eqn:E.
  - rewrite !for_each_cons. destruct (scan_line v line); [apply IH|done].
  - rewrite for_each_cons, (scan_line_other _ _ E). apply IH.
Qed.

End TextProperties.

Lemma extracted_rows_are_clean_witness :
  let data := [ {| Accession := "AB123456"; Length := Some 1500%Z;
                   Description := Some "Test organism gene" |} ] in
  data = omap row_of [scenario_block; "COMMENT     no accession"]
  /\ (length data <= 2)%nat
  /\ Forall (fun r =>
               Accession r <> ""
               /\ has_space (Accession r) = false
               /\ (forall d, Description r = Some d -> Str.strip d = d))
            data.
Proof.
  apply (extracted_rows_are_clean [scenario_block; "COMMENT     no accession"]).
  vm_compute. reflexivity.
Defined.

(** ** The search and the credentials *)

Section SearchProperties.
Import NCBIRetriever.
Context (env : environment).

(** X9: the credentials are ambient. A retriever constructed without an
    API key after one constructed with a key keeps sending the earlier key,
    under its own e-mail address; the log and the frames are untouched. *)
Theorem later_retriever_keeps_earlier_api_key email1 key1 email2 w :
  key1 <> "" ->
  exists w',
    (_ ← init email1 key1; init email2 "") w = (Ok tt, w')
    /\ entrez_api_key w' = Some key1
    /\ entrez_email w' = Some email2
    /\ entrez_tool w' = Some "BioScriptEx10"
    /\ log w' = log w /\ frames w' = frames w.
Proof.
  intros Hkey. eexists. split; [reflexivity|]. simpl.
  destruct key1; [done|]. done.
Qed.

(** X10: [search_taxid] logs exactly one search, with history enabled,
    whatever happens. It returns a result only when the service answered and
    the count reads as a positive integer, and then it is the answer of the
    service unchanged; it returns [None] only for a count that reads as
    zero or less; it raises only what the service raised, or [ValueError] for
    a count that is not an integer. *)
Theorem search_taxid_outcomes taxid min_len max_len w :
  let term := search_term taxid min_len max_len in
  (search_taxid env taxid min_len max_len w).2
  = add_log w [Esearch "nucleotide" term "y"]
  /\ match (search_taxid env taxid min_len max_len w).1 with
     | Ok (Some res) =>
         esearch_read env (log w) term = Ok res
         /\ exists n, Str.int (Count res) = Ok n /\ (0 < n)%Z
     | Ok None =>
         exists res n,
           esearch_read env (log w) term = Ok res
           /\ Str.int (Count res) = Ok n /\ (n <= 0)%Z
     | Raise e =>
         esearch_read env (log w) term = Raise e
         \/ exists res,
              esearch_read env (log w) term = Ok res
              /\ Str.int (Count res) = Raise e /\ e = ValueError
     end.
Proof.
  intros term. unfold search_taxid, esearch, mbind, io_bind, emit, lift.
  cbn beta iota. fold term.
  destruct (esearch_read env (log w) term) as [res|e] eqn:E; [|by split; [|left]].
  destruct (Str.int (Count res)) as [n|e] eqn:En.
  - cbn. split; [done|]. destruct (Z.ltb_spec 0 n).
    + split; [done|]. by exists n.
    + exists res, n. by repeat split.
  - cbn. split; [done|]. right. exists res. repeat split; [done|].
    by eapply int_raises.
Qed.

End SearchProperties.

Lemma later_retriever_keeps_earlier_api_key_witness :
  exists w',
    (_ ← NCBIRetriever.init "first@example.org" "KEY1";
     NCBIRetriever.init "second@example.org" "") initial_world = (Ok tt, w')
    /\ entrez_api_key w' = Some "KEY1"
    /\ entrez_email w' = Some "second@example.org"
    /\ entrez_tool w' = Some "BioScriptEx10"
    /\ log w' = log initial_world /\ frames w' = frames initial_world.
Proof.
  apply (later_retriever_keeps_earlier_api_key
           "first@example.org" "KEY1" "second@example.org" initial_world).
  discriminate.
Defined.

(** ** Runs of [main] *)

Section MainProperties.
Import NCBIRetriever.
Context (env : environment).

Lemma int_or_none_raises s e : int_or_none s = Raise e -> e = ValueError.
Proof.
  unfold int_or_none. destruct (truthy_str s); [|done].
  destruct (Str.int s) as [n|e'] eqn:E; [done|].
  intros [= <-]. by eapply int_raises.
Qed.

Lemma efetch_requests_app xs ys :
  efetch_requests (xs ++ ys) = efetch_requests xs ++ efetch_requests ys.
Proof. apply omap_app. Qed.

Lemma efetch_requests_pages webenv query_key batch_size starts :
  efetch_requests (starts ≫= page_events webenv query_key batch_size)
  = page_request webenv query_key batch_size <$> starts.
Proof.
  induction starts as [|start starts IH]; [done|].
  rewrite bind_cons, efetch_requests_app, IH. done.
Qed.

Lemma efetch_requests_library cs : efetch_requests (Library <$> cs) = [].
Proof. by induction cs. Qed.

Lemma call_ok c w :
  (forall history call, library_raises env history call = None) ->
  call env c w = (Ok tt, add_log w [Library c]).
Proof. intros H. unfold call. by rewrite H. Qed.

Lemma calls_ok cs w :
  (forall history call, library_raises env history call = None) ->
  calls env cs w = (Ok tt, add_log w (Library <$> cs)).
Proof.
  intros H. revert w. induction cs as [|c cs IH]; intros w.
  - change (calls env [] w) with (Ok tt, w). by rewrite add_log_nil.
  - cbn [calls]. rewrite (io_bind_ok _ _ _ _ _ (call_ok c w H)), IH.
    by rewrite add_log_add_log.
Qed.

(** The report stage on any disk: it only adds library calls and prints to
    the log, and leaves the credentials alone. *)
Lemma report_any output data w :
  exists outcome w' tail,
    (df ← generate_csv env data (output +:+ ".csv");
     _ ← emit (Print ("Saved report to " +:+ output +:+ ".csv"));
     _ ← plot_lengths env df (output +:+ ".png");
     emit (Print ("Saved plot to " +:+ output +:+ ".png"))) w
    = (outcome, w')
    /\ log w' = log w ++ tail
    /\ efetch_requests tail = [].
Proof.
  destruct (generate_csv_cases env data (output +:+ ".csv") w)
    as (o1 & w1 & done1 & Hgen & Hlog1 & _ & _ & _ & _ & _ & Hok1).
  destruct o1 as [df|e].
  - destruct (Hok1 df eq_refl) as [_ Hdf].
    destruct (plot_lengths_cases env df (report_table data) (output +:+ ".png")
                (add_log w1 [Print ("Saved report to " +:+ output +:+ ".csv")]) Hdf)
      as (o2 & w2 & done2 & Hplot & _ & _ & Hlog2 & _).
    destruct o2 as [[]|e].
    + eexists. eexists. eexists. split.
      { rewrite (io_bind_ok _ _ _ _ _ Hgen).
        erewrite io_bind_ok by reflexivity.
        rewrite (io_bind_ok _ _ _ _ _ Hplot). reflexivity. }
      split.
      { simpl. rewrite Hlog2. simpl. rewrite Hlog1, <- !app_assoc. reflexivity. }
      rewrite !efetch_requests_app, !efetch_requests_library. reflexivity.
    + eexists. eexists. eexists. split.
      { rewrite (io_bind_ok _ _ _ _ _ Hgen).
        erewrite io_bind_ok by reflexivity.
        rewrite (io_bind_raise _ _ _ _ _ Hplot). reflexivity. }
      split.
      { rewrite Hlog2. simpl. rewrite Hlog1, <- !app_assoc. reflexivity. }
      rewrite !efetch_requests_app, !efetch_requests_library. reflexivity.
  - eexists. eexists. eexists. split.
    { rewrite (io_bind_raise _ _ _ _ _ Hgen). reflexivity. }
    split; [exact Hlog1|]. apply efetch_requests_library.
Qed.

(** The report stage when no call raises. *)
Lemma report_ok output data w :
  (forall history call, library_raises env history call = None) ->
  exists w',
    (df ← generate_csv env data (output +:+ ".csv");
     _ ← emit (Print ("Saved report to " +:+ output +:+ ".csv"));
     _ ← plot_lengths env df (output +:+ ".png");
     emit (Print ("Saved plot to " +:+ output +:+ ".png"))) w
    = (Ok tt, w')
    /\ log w' = log w ++ report_events output data
    /\ entrez_email w' = entrez_email w
    /\ entrez_api_key w' = entrez_api_key w
    /\ entrez_tool w' = entrez_tool w.
Proof.
  intros Hlib.
  destruct (new_frame_run (report_table data)
              (add_log w [Library (NewDataFrame data report_columns)]))
    as (df & Hnew & _).
  set (w0 := set_frame (add_log w [Library (NewDataFrame data report_columns)]) df
               (report_table data)) in *.
  assert (Hdf : frames w0 !! df = Some (report_table data)) by apply set_frame_lookup.
  set (w1 := add_log w0 [Library (ToCsv (report_table data) (output +:+ ".csv") false);
                         Print ("Saved report to " +:+ output +:+ ".csv")]).
  destruct (new_frame_run (SortedBy (report_table data) "Length" false)
              (add_log w1 [Library (SortValues (report_table data) "Length" false false)]))
    as (df' & Hnew' & _).
  set (w2 := set_frame
               (add_log w1 [Library (SortValues (report_table data) "Length" false false)])
               df' (SortedBy (report_table data) "Length" false)) in *.
  assert (Hdf' : frames w2 !! df' = Some (SortedBy (report_table data) "Length" false))
    by apply set_frame_lookup.
  eexists. split.
  { unfold generate_csv, Pandas.data_frame, Pandas.to_csv.
    change ["Accession"; "Length"; "Description"] with report_columns.
    erewrite io_bind_ok; cycle 1.
    { erewrite io_bind_ok; cycle 1.
      { rewrite (io_bind_ok _ _ _ _ _ (call_ok _ _ Hlib)). exact Hnew. }
      erewrite io_bind_ok; cycle 1.
      { rewrite (io_bind_ok _ _ _ _ _ (read_frame_run _ _ _ Hdf)).
        apply (call_ok _ _ Hlib). }
      reflexivity. }
    erewrite io_bind_ok by reflexivity.
    rewrite !add_log_add_log. fold w1.
    erewrite io_bind_ok; cycle 1.
    { unfold plot_lengths, Pandas.sort_values.
      erewrite io_bind_ok; cycle 1.
      { rewrite (io_bind_ok _ _ _ (report_table data) w1) by (by apply read_frame_run).
        rewrite (io_bind_ok _ _ _ _ _ (call_ok _ _ Hlib)). cbn iota.
        rewrite (io_bind_ok _ _ _ _ _ Hnew'). reflexivity. }
      cbn iota.
      rewrite (io_bind_ok _ _ _ _ _ (read_frame_run _ _ _ Hdf')).
      apply (calls_ok _ _ Hlib). }
    reflexivity. }
  split; [|by repeat split].
  simpl. rewrite <- !app_assoc. reflexivity.
Qed.

Lemma main_reaches_conversions ans w :
  main env ans w
  = (min_len ← lift (int_or_none (ans_min_len ans));
     max_len ← lift (int_or_none (ans_max_len ans));
     _ ← NCBIRetriever.init (ans_email ans) (ans_api_key ans);
     _ ← emit (Print ("Searching for taxID: " +:+ ans_taxid ans +:+ "..."));
     results ← search_taxid env (ans_taxid ans) min_len max_len;
     match results with
     | None => lift (Raise (SystemExit "No records found"))
     | Some results =>
         count ← lift (Str.int (Count results));
         _ ← emit (Print ("Found " +:+ Str.of_Z count +:+ " records"));
         records ← fetch_records env (WebEnv results) (QueryKey results)
                     (Z.min count 100) 10;
         data ← lift (parse_records records);
         df ← generate_csv env data (output_base ans +:+ ".csv");
         _ ← emit (Print ("Saved report to " +:+ output_base ans +:+ ".csv"));
         _ ← plot_lengths env df (output_base ans +:+ ".png");
         emit (Print ("Saved plot to " +:+ output_base ans +:+ ".png"))
     end) (add_log w prompt_events).
Proof.
  unfold main. do 8 (erewrite io_bind_ok by reflexivity).
  rewrite !add_log_add_log. reflexivity.
Qed.

(** From the prompts to the first page request, when the lengths convert
    and the search finds [n > 0] records. *)
Lemma main_reaches_fetch ans w min_len max_len res n :
  int_or_none (ans_min_len ans) = Ok min_len ->
  int_or_none (ans_max_len ans) = Ok max_len ->
  (forall history,
     esearch_read env history (search_term (ans_taxid ans) min_len max_len) = Ok res) ->
  Str.int (Count res) = Ok n -> (0 < n)%Z ->
  main env ans w
  = (records ← fetch_records env (WebEnv res) (QueryKey res) (Z.min n 100) 10;
     data ← lift (parse_records records);
     df ← generate_csv env data (output_base ans +:+ ".csv");
     _ ← emit (Print ("Saved report to " +:+ output_base ans +:+ ".csv"));
     _ ← plot_lengths env df (output_base ans +:+ ".png");
     emit (Print ("Saved plot to " +:+ output_base ans +:+ ".png")))
    (searched_world ans w (search_term (ans_taxid ans) min_len max_len) n).
Proof.
  intros Hmin Hmax Hsearch Hcount Hpos. rewrite main_reaches_conversions.
  erewrite io_bind_ok by (unfold lift; rewrite Hmin; reflexivity).
  erewrite io_bind_ok by (unfold lift; rewrite Hmax; reflexivity).
  do 2 (erewrite io_bind_ok by reflexivity).
  erewrite io_bind_ok by (apply (search_taxid_run env _ _ _ _ res n); [apply Hsearch|done]).
  destruct (Z.ltb_spec 0 n) as [_|?]; [|lia].
  erewrite io_bind_ok by (unfold lift; rewrite Hcount; reflexivity).
  erewrite io_bind_ok by reflexivity.
  unfold searched_world, configured. rewrite !add_log_add_log. reflexivity.
Qed.

Lemma fetch_records_all_answered webenv query_key count batch_size w :
  (0 < batch_size)%Z ->
  (forall history args, succeeds (efetch_read env history args)) ->
  exists records,
    fetch_records env webenv query_key count batch_size w
    = (Ok records,
       add_log w (range_up (Z.to_nat (count - 0)) 0 count batch_size
                  ≫= page_events webenv query_key batch_size)).
Proof.
  intros Hb Hnet.
  destruct (fetch_loop_any env webenv query_key batch_size
              (range_up (Z.to_nat (count - 0)) 0 count batch_size) [] w)
    as (outcome & k & tail & Hrun & Hout).
  destruct outcome as [records|e].
  - destruct Hout as [-> ->]. exists records.
    rewrite (fetch_records_positive_step _ _ _ _ _ _ Hb), Hrun.
    by rewrite firstn_all, app_nil_r.
  - destruct Hout as (start & _ & _ & Hfail).
    specialize (Hnet (log w ++
      (take k (range_up (Z.to_nat (count - 0)) 0 count batch_size)
       ≫= page_events webenv query_key batch_size))
      (page_request webenv query_key batch_size start)).
    by rewrite Hfail in Hnet.
Qed.

Lemma forallb_bind {A B} (p : B -> bool) (f : A -> list B) (xs : list A) :
  (forall x, forallb p (f x) = true) -> forallb p (xs ≫= f) = true.
Proof.
  intros H. induction xs as [|x xs IH]; [done|].
  rewrite bind_cons, forallb_app, H, IH. done.
Qed.

(** X11: a length answer that is not empty and does not read as an
    integer stops [main] with [ValueError] right after the prompts: the
    retriever is not constructed, nothing is searched or fetched and no file
    is written. *)
Theorem invalid_length_stops_before_the_search ans w e :
  int_or_none (ans_min_len ans) = Raise e
  \/ (exists min_len, int_or_none (ans_min_len ans) = Ok min_len
                      /\ int_or_none (ans_max_len ans) = Raise e) ->
  main env ans w = (Raise ValueError, add_log w prompt_events).
Proof.
  intros H. rewrite main_reaches_conversions.
  destruct H as [Hmin|(min_len & Hmin & Hmax)].
  - rewrite (int_or_none_raises _ _ Hmin) in Hmin.
    by erewrite io_bind_raise by (unfold lift; rewrite Hmin; reflexivity).
  - rewrite (int_or_none_raises _ _ Hmax) in Hmax.
    erewrite io_bind_ok by (unfold lift; rewrite Hmin; reflexivity).
    by erewrite io_bind_raise by (unfold lift; rewrite Hmax; reflexivity).
Qed.

(** X12: whatever count the search reports, [main] asks for at most ten
    pages of ten records: with a service that answers every page, the page
    requests of a run are those at offsets 0, 10, ... below the smaller of
    the count and 100, whether or not extraction and the report then
    succeed. *)
Theorem main_requests_at_most_ten_pages ans w min_len max_len res n :
  int_or_none (ans_min_len ans) = Ok min_len ->
  int_or_none (ans_max_len ans) = Ok max_len ->
  (forall history,
     esearch_read env history (search_term (ans_taxid ans) min_len max_len) = Ok res) ->
  Str.int (Count res) = Ok n ->
  (forall history args, succeeds (efetch_read env history args)) ->
  exists outcome w' events (k : nat),
    main env ans w = (outcome, w')
    /\ log w' = log w ++ events
    /\ efetch_requests events
       = (fun i : nat =>
            page_request (WebEnv res) (QueryKey res) 10 (Z.of_nat i * 10))
         <$> seq 0 k
    /\ (k <= 10)%nat
    /\ ((Z.of_nat k - 1) * 10 < Z.max 0 (Z.min n 100) <= Z.of_nat k * 10)%Z.
Proof.
  intros Hmin Hmax Hsearch Hcount Hnet.
  set (term := search_term (ans_taxid ans) min_len max_len) in *.
  destruct (Z.ltb_spec 0 n) as [Hpos|Hneg].
  - rewrite (main_reaches_fetch _ _ _ _ _ _ Hmin Hmax Hsearch Hcount Hpos). fold term.
    destruct (fetch_records_all_answered (WebEnv res) (QueryKey res) (Z.min n 100) 10
                (searched_world ans w term n) ltac:(lia) Hnet) as [records Hfetch].
    destruct (range_up_spec (Z.to_nat (Z.min n 100 - 0)) 0 (Z.min n 100) 10
                ltac:(lia) ltac:(lia)) as (k & Hrange & Hk).
    rewrite Hrange in Hfetch.
    assert (Hreq : forall tail, efetch_requests tail = [] ->
      efetch_requests
        (prompt_events ++
         [Print ("Searching for taxID: " +:+ ans_taxid ans +:+ "...");
          Esearch "nucleotide" term "y";
          Print ("Found " +:+ Str.of_Z n +:+ " records")] ++
         (((fun i : nat => (0 + Z.of_nat i * 10)%Z) <$> seq 0 k)
          ≫= page_events (WebEnv res) (QueryKey res) 10) ++ tail)
      = (fun i : nat => page_request (WebEnv res) (QueryKey res) 10 (Z.of_nat i * 10))
        <$> seq 0 k).
    { intros tail Htail. rewrite !efetch_requests_app, efetch_requests_pages, Htail.
      cbn [efetch_requests prompt_events omap list_omap app].
      rewrite app_nil_r, <- list_fmap_compose. by apply list_fmap_ext. }
    rewrite (io_bind_ok _ _ _ _ _ Hfetch).
    destruct (parse_records records) as [data|e] eqn:Hparse.
    + erewrite io_bind_ok by reflexivity.
      destruct (report_any (output_base ans) data
                  (add_log (searched_world ans w term n)
                     (((fun i : nat => (0 + Z.of_nat i * 10)%Z) <$> seq 0 k)
                      ≫= page_events (WebEnv res) (QueryKey res) 10)))
        as (outcome & w' & tail & Hrun & Hlog & Htail).
      rewrite <- !str_app_assoc in *.
      exists outcome, w'. eexists. exists k. split; [exact Hrun|].
      split; [rewrite Hlog; simpl; rewrite <- !app_assoc; reflexivity|].
      split; [by apply (Hreq tail)|].
      split; lia.
    + exists (Raise e). eexists. eexists. exists k. split; [reflexivity|].
      split; [simpl; rewrite <- !app_assoc; reflexivity|].
      split; [rewrite <- (app_nil_r (_ ≫= _)); by apply (Hreq [])|].
      split; lia.
  - rewrite main_reaches_conversions.
    erewrite io_bind_ok by (unfold lift; rewrite Hmin; reflexivity).
    erewrite io_bind_ok by (unfold lift; rewrite Hmax; reflexivity).
    do 2 (erewrite io_bind_ok by reflexivity).
    erewrite io_bind_ok
      by (apply (search_taxid_run env _ _ _ _ res n); [apply Hsearch|done]).
    destruct (Z.ltb_spec 0 n) as [?|_]; [lia|].
    exists (Raise (SystemExit "No records found")). eexists. eexists. exists 0%nat.
    split; [reflexivity|].
    split; [simpl; rewrite <- !app_assoc; reflexivity|].
    split; [reflexivity|]. split; lia.
Qed.

Lemma no_output_before_report ans term n webenv query_key batch_size starts :
  Forall (fun e => is_output e = false)
    (events_until_search (ans_taxid ans) term
     ++ [Print ("Found " +:+ Str.of_Z n +:+ " records")]
     ++ (starts ≫= page_events webenv query_key batch_size)).
Proof.
  apply Forall_app. split; [by repeat constructor|].
  apply Forall_app. split; [by repeat constructor|].
  induction starts as [|start starts IH]; [constructor|].
  rewrite bind_cons. apply Forall_app. split; [by repeat constructor|done].
Qed.

(** X13: a complete run. When the lengths convert, the search finds a
    positive count, every page is answered, every block fetched is well
    formed and no call into pandas or matplotlib raises, [main] ends
    normally; its log is the prompts and the search, the count, the pages at
    offsets 0, 10, ... below the smaller of the count and 100, each followed
    by its sleep, then the report: the frame built from the rows of the
    fetched blocks in fetch order is written to one CSV file, and its copy
    sorted by descending length is drawn and saved as one chart, both named
    after the output answer (or "output" when it is empty). *)
Theorem complete_run_reports_the_fetched_rows
    ans w min_len max_len res n (respond : efetch_args -> string) :
  int_or_none (ans_min_len ans) = Ok min_len ->
  int_or_none (ans_max_len ans) = Ok max_len ->
  (forall history,
     esearch_read env history (search_term (ans_taxid ans) min_len max_len) = Ok res) ->
  Str.int (Count res) = Ok n -> (0 < n)%Z ->
  (forall history args, efetch_read env history args = Ok (respond args)) ->
  (forall args, forallb record_ok (kept_blocks (respond args)) = true) ->
  (forall history call, library_raises env history call = None) ->
  exists starts w',
    range 0 (Z.min n 100) 10 = Ok starts
    /\ main env ans w = (Ok tt, w')
    /\ log w'
       = log w
         ++ events_until_search (ans_taxid ans)
              (search_term (ans_taxid ans) min_len max_len)
         ++ [Print ("Found " +:+ Str.of_Z n +:+ " records")]
         ++ (starts ≫= page_events (WebEnv res) (QueryKey res) 10)
         ++ report_events (output_base ans)
              (omap row_of
                 (starts ≫= fun start =>
                    kept_blocks
                      (respond (page_request (WebEnv res) (QueryKey res) 10 start))))
    /\ entrez_email w' = Some (ans_email ans)
    /\ entrez_tool w' = Some "BioScriptEx10".
Proof.
  intros Hmin Hmax Hsearch Hcount Hpos Hnet Hok Hlib.
  set (term := search_term (ans_taxid ans) min_len max_len) in *.
  set (starts := range_up (Z.to_nat (Z.min n 100 - 0)) 0 (Z.min n 100) 10).
  set (records := starts ≫= fun start =>
         kept_blocks (respond (page_request (WebEnv res) (QueryKey res) 10 start))).
  destruct (report_ok (output_base ans) (omap row_of records)
              (add_log (searched_world ans w term n)
                 (starts ≫= page_events (WebEnv res) (QueryKey res) 10)) Hlib)
    as (w' & Hrun & Hlog & Hemail & _ & Htool).
  exists starts, w'. split; [by apply range_positive_step|]. split; [|split; [|split]].
  - rewrite (main_reaches_fetch _ _ _ _ _ _ Hmin Hmax Hsearch Hcount Hpos). fold term.
    erewrite io_bind_ok; cycle 1.
    { rewrite (fetch_records_positive_step env _ _ _ 10 _ ltac:(lia)).
      apply (fetch_loop_answered env _ _ 10 respond _ _ _ Hnet). }
    fold starts. rewrite app_nil_l. fold records.
    erewrite io_bind_ok; cycle 1.
    { unfold lift, parse_records.
      rewrite (parse_from_ok records []) by (by apply forallb_bind).
      reflexivity. }
    rewrite <- !str_app_assoc in *. exact Hrun.
  - rewrite Hlog. simpl. rewrite <- !app_assoc. reflexivity.
  - by rewrite Hemail.
  - by rewrite Htool.
Qed.

(** X14: one malformed block costs the whole report. When the pages are
    fetched but some fetched block has a malformed ACCESSION or LOCUS line,
    [main] ends with [IndexError] or [ValueError] after the last page: no
    frame is built, no CSV file is written and no chart is drawn. *)
Theorem malformed_block_leaves_no_report
    ans w min_len max_len res n (respond : efetch_args -> string) starts :
  int_or_none (ans_min_len ans) = Ok min_len ->
  int_or_none (ans_max_len ans) = Ok max_len ->
  (forall history,
     esearch_read env history (search_term (ans_taxid ans) min_len max_len) = Ok res) ->
  Str.int (Count res) = Ok n -> (0 < n)%Z ->
  (forall history args, efetch_read env history args = Ok (respond args)) ->
  range 0 (Z.min n 100) 10 = Ok starts ->
  forallb record_ok
    (starts ≫= fun start =>
       kept_blocks (respond (page_request (WebEnv res) (QueryKey res) 10 start)))
  = false ->
  exists e w' events,
    (e = IndexError \/ e = ValueError)
    /\ main env ans w = (Raise e, w')
    /\ log w' = log w ++ events
    /\ events
       = events_until_search (ans_taxid ans)
           (search_term (ans_taxid ans) min_len max_len)
         ++ [Print ("Found " +:+ Str.of_Z n +:+ " records")]
         ++ (starts ≫= page_events (WebEnv res) (QueryKey res) 10)
    /\ Forall (fun e => is_output e = false) events.
Proof.
  intros Hmin Hmax Hsearch Hcount Hpos Hnet Hrange Hbad.
  set (term := search_term (ans_taxid ans) min_len max_len) in *.
  rewrite range_positive_step in Hrange by lia. injection Hrange as <-.
  set (starts := range_up (Z.to_nat (Z.min n 100 - 0)) 0 (Z.min n 100) 10) in *.
  set (records := starts ≫= fun start =>
         kept_blocks (respond (page_request (WebEnv res) (QueryKey res) 10 start))) in *.
  assert (Hraise : exists e, (e = IndexError \/ e = ValueError)
                             /\ parse_records records = Raise e).
  { destruct (parse_from_bad records [] Hbad) as [H|H]; eauto. }
  destruct Hraise as (e & He & Hparse).
  exists e. eexists. eexists. split; [exact He|]. split; [|split; [|split]].
  - rewrite (main_reaches_fetch _ _ _ _ _ _ Hmin Hmax Hsearch Hcount Hpos). fold term.
    erewrite io_bind_ok; cycle 1.
    { rewrite (fetch_records_positive_step env _ _ _ 10 _ ltac:(lia)).
      apply (fetch_loop_answered env _ _ 10 respond _ _ _ Hnet). }
    fold starts. rewrite app_nil_l. fold records.
    erewrite io_bind_raise by (unfold lift; rewrite Hparse; reflexivity).
    reflexivity.
  - simpl. rewrite <- !app_assoc. reflexivity.
  - reflexivity.
  - apply (no_output_before_report ans term n).
Qed.

End MainProperties.

Lemma invalid_length_stops_before_the_search_witness :
  main sample_environment invalid_answers initial_world
  = (Raise ValueError, add_log initial_world prompt_events).
Proof.
  apply (invalid_length_stops_before_the_search sample_environment invalid_answers
           initial_world ValueError).
  left. reflexivity.
Defined.

Lemma main_requests_at_most_ten_pages_witness :
  exists outcome w' events (k : nat),
    main sample_environment sample_answers initial_world = (outcome, w')
    /\ log w' = log initial_world ++ events
    /\ efetch_requests events
       = (fun i : nat => page_request "MCID_1" "1" 10 (Z.of_nat i * 10)) <$> seq 0 k
    /\ (k <= 10)%nat
    /\ ((Z.of_nat k - 1) * 10 < Z.max 0 (Z.min 25 100) <= Z.of_nat k * 10)%Z.
Proof.
  apply (main_requests_at_most_ten_pages sample_environment sample_answers initial_world
           (Some 100%Z) None {| Count := "25"; WebEnv := "MCID_1"; QueryKey := "1" |} 25);
    [reflexivity..|].
  intros history args. exact I.
Defined.

Lemma complete_run_reports_the_fetched_rows_witness :
  let respond := fun _ : efetch_args => scenario_block +:+ record_separator in
  exists starts w',
    range 0 (Z.min 25 100) 10 = Ok starts
    /\ main (answering "25" respond) sample_answers initial_world = (Ok tt, w')
    /\ log w'
       = log initial_world
         ++ events_until_search "9606" (NCBIRetriever.search_term "9606" (Some 100%Z) None)
         ++ [Print ("Found " +:+ Str.of_Z 25 +:+ " records")]
         ++ (starts ≫= page_events "MCID_1" "1" 10)
         ++ report_events (output_base sample_answers)
              (omap row_of
                 (starts ≫= fun start =>
                    kept_blocks (respond (page_request "MCID_1" "1" 10 start))))
    /\ entrez_email w' = Some "operator@example.org"
    /\ entrez_tool w' = Some "BioScriptEx10".
Proof.
  intros respond.
  apply (complete_run_reports_the_fetched_rows (answering "25" respond) sample_answers
           initial_world (Some 100%Z) None
           {| Count := "25"; WebEnv := "MCID_1"; QueryKey := "1" |} 25 respond);
    try reflexivity.
Defined.

Lemma malformed_block_leaves_no_report_witness :
  let respond := fun _ : efetch_args => "LOCUS       AB123456" +:+ LF +:+ record_separator in
  exists e w' events,
    (e = IndexError \/ e = ValueError)
    /\ main (answering "25" respond) sample_answers initial_world = (Raise e, w')
    /\ log w' = log initial_world ++ events
    /\ events
       = events_until_search "9606" (NCBIRetriever.search_term "9606" (Some 100%Z) None)
         ++ [Print ("Found " +:+ Str.of_Z 25 +:+ " records")]
         ++ ([0; 10; 20]%Z ≫= page_events "MCID_1" "1" 10)
    /\ Forall (fun e => is_output e = false) events.
Proof.
  intros respond.
  apply (malformed_block_leaves_no_report (answering "25" respond) sample_answers
           initial_world (Some 100%Z) None
           {| Count := "25"; WebEnv := "MCID_1"; QueryKey := "1" |} 25 respond
           [0; 10; 20]%Z);
    try reflexivity.
Defined.

(** ** Blocks and the separator *)

Section SeparatorProperties.
Implicit Types (s t cur sep text : string).

Lemma str_app_inv_length cur p s t :
  String.length cur = String.length p ->
  cur +:+ s = p +:+ t -> cur = p /\ s = t.
Proof.
  revert p. induction cur as [|a cur IH]; intros [|b p] Hlen H; try done.
  rewrite !str_app_cons in H. injection H as -> H. simpl in Hlen.
  destruct (IH p ltac:(lia) H) as [-> ->]. done.
Qed.

Lemma not_occurs_in_scanned sep cur s :
  sep <> "" ->
  (forall p q, cur +:+ s = p +:+ sep +:+ q -> (String.length cur <= String.length p)%nat) ->
  ~ occurs sep cur.
Proof.
  intros Hsep Hinv (p & q & Hcur).
  assert (Hlen : (String.length cur <= String.length p)%nat).
  { apply (Hinv p (q +:+ s)). by rewrite Hcur, !str_app_assoc. }
  rewrite Hcur, !str_app_length in Hlen. destruct sep; [done|]. simpl in Hlen. lia.
Qed.

(** No segment of a split holds the separator. The scan keeps this
    invariant: no occurrence of the separator in what was read and what is
    left starts inside what was read. *)
Lemma split_go_segments_free fuel sep cur s :
  sep <> "" -> (String.length s < fuel)%nat ->
  (forall p q, cur +:+ s = p +:+ sep +:+ q -> (String.length cur <= String.length p)%nat) ->
  Forall (fun seg => ~ occurs sep seg) (Str.split_go fuel sep cur s).
Proof.
  intros Hsep. revert cur s.
  induction fuel as [|fuel IH]; intros cur s Hlen Hinv; [lia|].
  cbn [Str.split_go]. destruct (Str.strip_prefix sep s) as [rest|] eqn:E.
  - constructor; [by eapply not_occurs_in_scanned|].
    apply strip_prefix_Some in E. subst s. apply IH.
    + rewrite str_app_length in Hlen. destruct sep; [done|]. simpl in Hlen. lia.
    + intros p q _. simpl. lia.
  - destruct s as [|c s].
    + constructor; [by eapply not_occurs_in_scanned|constructor].
    + apply IH; [simpl in Hlen; lia|].
      intros p q H. rewrite str_app_assoc in H. change (Str.of_char c +:+ s) with (String c s) in H.
      specialize (Hinv p q H). rewrite str_app_length. simpl.
      destruct (decide (String.length cur = String.length p)) as [Heq|]; [|lia].
      destruct (str_app_inv_length _ _ _ _ Heq H) as [_ Hs].
      by apply (strip_prefix_None _ _ q) in E.
Qed.

(** A text without the separator is one segment, and only such a text. *)
Lemma split_go_single fuel sep cur s :
  sep <> "" -> (String.length s < fuel)%nat ->
  ~ occurs sep s -> Str.split_go fuel sep cur s = [cur +:+ s].
Proof.
  intros Hsep. revert cur s.
  induction fuel as [|fuel IH]; intros cur s Hlen Hno; [lia|].
  cbn [Str.split_go]. destruct (Str.strip_prefix sep s) as [rest|] eqn:E.
  - apply strip_prefix_Some in E. destruct Hno. by exists "", rest.
  - destruct s as [|c s]; [by rewrite str_app_nil_r|].
    rewrite IH; [by rewrite str_app_assoc|simpl in Hlen; lia|].
    intros (p & q & ->). apply Hno. by exists (String c p), q.
Qed.

Lemma split_go_several fuel sep cur s :
  sep <> "" -> (String.length s < fuel)%nat ->
  occurs sep s -> (2 <= length (Str.split_go fuel sep cur s))%nat.
Proof.
  intros Hsep. revert cur s.
  induction fuel as [|fuel IH]; intros cur s Hlen Hocc; [lia|].
  cbn [Str.split_go]. destruct (Str.strip_prefix sep s) as [rest|] eqn:E.
  - pose proof (split_go_nonempty fuel sep "" rest) as Hne.
    destruct (Str.split_go fuel sep "" rest); [done|]. simpl. lia.
  - destruct Hocc as (p & q & Hs). destruct p as [|c p].
    + rewrite str_app_nil_l in Hs. by apply (strip_prefix_None _ _ q) in E.
    + rewrite str_app_cons in Hs. subst s. apply IH; [simpl in Hlen; lia|].
      by exists p, q.
Qed.

Lemma Forall_but_last {A} (P : A -> Prop) (xs : list A) :
  Forall P xs -> Forall P (but_last xs).
Proof.
  intros H. destruct xs as [|x xs]; [done|].
  destruct (snoc_last (x :: xs) ltac:(done)) as (y & _ & Hsnoc).
  rewrite Hsnoc in H. by apply Forall_app in H as [H _].
Qed.

(** X15: a response in which the separator does not occur yields no block
    at all: its whole text is the last segment and is dropped. Conversely a
    response that yields no block holds no separator. *)
Theorem response_without_separator_yields_nothing text :
  blocks_of text = Ok [] <-> ~ occurs record_separator text.
Proof.
  rewrite blocks_of_unfold. split.
  - intros H Hocc.
    apply (split_go_several (S (String.length text)) record_separator "" text) in Hocc;
      [|done|lia].
    destruct (snoc_last _ (split_go_nonempty (S (String.length text))
                             record_separator "" text)) as (x & _ & Hsnoc).
    set (segments := Str.split_go (S (String.length text)) record_separator "" text) in *.
    assert (Hnil : but_last segments = []) by congruence.
    rewrite Hnil in Hsnoc. rewrite Hsnoc in Hocc. simpl in Hocc. lia.
  - intros Hno. by rewrite split_go_single by (done || lia).
Qed.

(** X16: no block kept from a response holds the separator. *)
Theorem kept_blocks_hold_no_separator text blocks :
  blocks_of text = Ok blocks ->
  Forall (fun block => ~ occurs record_separator block) blocks.
Proof.
  rewrite blocks_of_unfold.
  set (segments := Str.split_go (S (String.length text)) record_separator "" text).
  intros H. assert (but_last segments = blocks) as <- by congruence.
  apply Forall_but_last.
  apply split_go_segments_free; [done|lia|]. intros p q _. simpl. lia.
Qed.

End SeparatorProperties.

Lemma kept_blocks_hold_no_separator_witness :
  Forall (fun block => ~ occurs record_separator block) ["recA"; "recB"].
Proof.
  apply (kept_blocks_hold_no_separator ("recA//" +:+ LF +:+ "recB//" +:+ LF)).
  reflexivity.
Defined.
